(** * MD analyzer page: a shallow embedding of [pages/3_MD_analyzer.py]

    The page is a Streamlit script: every user interaction re-runs it from
    top to bottom against the session-scoped dictionary [st.session_state].
    The embedding follows the script statement by statement.

    - Python floats are idealised as rationals [Q] extended with [NaN]
      ([num]); Python ints are [Z].
    - [st.session_state] is a [gmap string Ran].
    - Everything the script calls but does not define (widgets, the file
      system, MDAnalysis, scipy, pandas) is a field of the record [World];
      a script run is a function of the world it meets and of the session
      it starts from, in an error-and-state monad [M] whose state also
      logs every external call in order.
    - Atom selections, transformations and analysis objects are kept as
      the script writes them (their constructors are taken not to fail);
      only [run] computes. Chart styling (line widths, colours, dashes) and
      [format_func] are left out, as is the [step=1] of [rdf.run], which is
      the library's default. *)

From Stdlib Require Import ZArith QArith Lia Lqa List String.
From stdpp Require Import base option list gmap strings.

Local Open Scope string_scope.
Local Open Scope list_scope.
Local Open Scope Z_scope.

(** ** Values *)

Definition path := string.

(** Exceptions the script can meet; none is caught anywhere in the page. *)
Inductive exn :=
| TypeError (msg : string)
| ValueError (msg : string)
| IndexError (msg : string)
| KeyError (msg : string)
| AttributeError (msg : string)
| LibraryError (msg : string).

Inductive res (A : Type) :=
| Ok (a : A)
| Raise (e : exn).
Arguments Ok {A} a.
Arguments Raise {A} e.

(** A float: a rational, or the not-a-number of an undefined quotient. *)
Inductive num :=
| Fin (q : Q)
| NaN.

Definition num_mul (a b : num) : num :=
  match a, b with
  | Fin x, Fin y => Fin (x * y)
  | _, _ => NaN
  end.

Definition num_sub (a b : num) : num :=
  match a, b with
  | Fin x, Fin y => Fin (x - y)
  | _, _ => NaN
  end.

(** Float division as the script meets it: [0/0] is [NaN]; a non-zero
    numerator over zero would be an infinity, which the page never forms
    (the only divisor it writes is the constant [2 * dim_fac]). *)
Definition num_div (a b : num) : num :=
  match a, b with
  | Fin x, Fin y => if Qeq_bool y 0 then NaN else Fin (x / y)
  | _, _ => NaN
  end.

(** ** The molecular system and the analyses, as the script configures them *)

(** [u.atoms] and [u.select_atoms(sel)]. *)
Inductive AtomGroup :=
| atoms
| select_atoms (sel : string).

Inductive transformation :=
| unwrap (ag : AtomGroup)
| wrap (ag : AtomGroup) (compound : string).

Record Universe := {
  topology : option path;
  coordinates : option path;
  format : string;
  topology_format : string;
  dimensions : option (list Q);
  transformations : list transformation
}.

Inductive Analysis :=
| InterRDF (u : Universe) (g1 g2 : AtomGroup) (nbins : Z) (range : Q * Q)
    (exclusion_block : Z * Z)
| LinearDensity (u : Universe) (ag : AtomGroup) (binsize : Q)
| EinsteinMSD (u : Universe) (select msd_type : string) (fft : bool)
| DielectricConstant (u : Universe) (ag : AtomGroup) (temperature : Q)
    (make_whole : bool).

Record AxisDensity := {
  mass_density : list Q;
  hist_bin_edges : list Q
}.

Inductive Results :=
| RdfResults (bins rdf : list Q)
| LdensResults (x y z : AxisDensity)
| MsdResults (timeseries : list Q) (n_frames : nat)
| DielResults (eps_mean : Q).

(** [analysis.run()] returns the analysis object itself, now carrying its
    results; that object is what the page stores in the session. *)
Record Ran := {
  analysis : Analysis;
  results : Results
}.

(** What the page can read of [linregress]'s result. It also reads
    [rvalue] into a variable it never uses; that field is left out. *)
Record LinregressResult := {
  slope : num;
  intercept : num
}.

(** ** The four metrics and their widget labels and session keys *)

Inductive metric := RDF | LDENS | MSD | DIEL.

Global Instance metric_eq_dec : EqDecision metric.
Proof. solve_decision. Defined.

Definition key (m : metric) : string :=
  match m with
  | RDF => "rdf_OO"
  | LDENS => "ldens"
  | MSD => "MSD"
  | DIEL => "diel"
  end.

Definition check_label (m : metric) : string :=
  match m with
  | RDF => "Calculate RDFs"
  | LDENS => "Calculate Linear Density"
  | MSD => "Calculate MSD and self-diffusivity"
  | DIEL => "Calculate Dielectric Constant"
  end.

Definition recalc_label (m : metric) : string :=
  match m with
  | RDF => "Recalculate RDFs"
  | LDENS => "Recalculate Linear Density"
  | MSD => "Recalculate MSD"
  | DIEL => "Recalculate Dielectric Constant"
  end.

Definition metric_of (a : Analysis) : metric :=
  match a with
  | InterRDF _ _ _ _ _ _ => RDF
  | LinearDensity _ _ _ => LDENS
  | EinsteinMSD _ _ _ _ => MSD
  | DielectricConstant _ _ _ _ => DIEL
  end.

(** ** What the page renders *)

(** Pieces of an f-string handed to [st.write]. *)
Inductive fragment :=
| Text (s : string)
| IntF (z : Z)
| Sci3E (v : num)        (* "{v:.3E}" *)
| QF (q : Q).

Record Scatter := {
  sc_x : list Q;
  sc_y : list Q;
  sc_name : string;
  sc_secondary_y : bool
}.

Inductive axis_update :=
| update_xaxes (title : string) (rng : option (Q * Q))
| update_yaxes (title : string) (rng : option (Q * Q)) (secondary_y : bool).

Record Figure := {
  traces : list Scatter;
  layout : list axis_update
}.

Definition empty_figure : Figure := {| traces := []; layout := [] |}.

Definition add_trace (f : Figure) (t : Scatter) : Figure :=
  {| traces := traces f ++ [t]; layout := layout f |}.

Definition update_axis (f : Figure) (a : axis_update) : Figure :=
  {| traces := traces f; layout := layout f ++ [a] |}.

(** ** The log of external calls *)

Inductive event :=
| EvSetPageConfig (layout : string)
| EvSelectbox (label : string) (options : list path) (ret : option path)
| EvCheckbox (label : string) (ret : bool)
| EvButton (label : string) (ret : bool)
| EvSlider (label : string) (min_value max_value : Z) (value : Z * Z)
| EvUniverse (topo xyz : option path)
| EvOpen (file : option path)
| EvRun (a : Analysis)
| EvLinregress (xs ys : list Q)
| EvReadCsv (file : string)
| EvWrite (body : list fragment)
| EvPlotlyChart (f : Figure).

(** ** The world a script run meets *)

Record World := {
  (* file discovery *)
  glob : string -> list path;
  path_sort : list path -> list path;
  (* widgets: what the user has set them to in this run *)
  selectbox : string -> list path -> option path;
  checkbox : string -> bool;
  button : string -> bool;
  slider : string -> Z -> Z -> Z * Z -> res (Z * Z);
  (* files and parsers *)
  mda_Universe : option path -> option path -> res unit;
  read_text : path -> res string;
  float_of_str : string -> res Q;
  st_install_dir : string;
  read_csv : string -> res (list Q * list Q);
  (* numeric kernels *)
  run : Analysis -> res Results;
  linregress : list Q -> list Q -> res LinregressResult
}.

(** ** The page state and the monad *)

Record Page := {
  session : gmap string Ran;
  log : list event
}.

Definition M (A : Type) : Type := Page -> res A * Page.

Definition ret {A} (a : A) : M A := fun p => (Ok a, p).

Definition bind {A B} (c : M A) (k : A -> M B) : M B :=
  fun p =>
    match c p with
    | (Ok a, p') => k a p'
    | (Raise e, p') => (Raise e, p')
    end.

Definition raise {A} (e : exn) : M A := fun p => (Raise e, p).

Definition lift {A} (r : res A) : M A := fun p => (r, p).

Definition emit (e : event) : M unit :=
  fun p => (Ok tt, {| session := session p; log := log p ++ [e] |}).

Definition get_session : M (gmap string Ran) :=
  fun p => (Ok (session p), p).

Definition store (k : string) (v : Ran) : M unit :=
  fun p => (Ok tt, {| session := <[k := v]> (session p); log := log p |}).

Declare Scope page_scope.
Delimit Scope page_scope with page.
Notation "'do' x <- c ; k" := (bind c (fun x => k))
  (at level 10, x name, c at level 100, k at level 200,
   format "'[v' 'do'  x  <-  c ; '/' k ']'") : page_scope.
Notation "'do' ' pat <- c ; k" := (bind c (fun x => match x with pat => k end))
  (at level 10, pat pattern, c at level 100, k at level 200) : page_scope.
Local Open Scope page_scope.

(** ** Python and numpy helpers *)

(** [np.arange(n)], as integers. *)
Definition arange (n : nat) : list Z := map Z.of_nat (seq 0 n).

(** [np.arange(a, b)]: the integers from [a] up to [b - 1]. *)
Definition arange2 (a b : Z) : list Z :=
  map (fun i => a + Z.of_nat i) (seq 0 (Z.to_nat (b - a))).

(** [l[i]] on a list or a one-dimensional array: a negative index counts
    from the end, anything outside raises [IndexError]. *)
Definition py_index {A} (l : list A) (i : Z) : res A :=
  let n := Z.of_nat (length l) in
  let j := if i <? 0 then i + n else i in
  if (0 <=? j) && (j <? n) then
    match l !! Z.to_nat j with
    | Some a => Ok a
    | None => Raise (IndexError "index out of bounds")
    end
  else Raise (IndexError "index out of bounds").

(** A slice bound [i] of [l[i:j]] after Python's normalisation. *)
Definition slice_bound (n i : Z) : Z :=
  if i <? 0 then Z.max 0 (i + n) else Z.min i n.

(** [l[start:stop]]; slicing never raises. *)
Definition py_slice {A} (l : list A) (start stop : Z) : list A :=
  let n := Z.of_nat (length l) in
  let a := slice_bound n start in
  let b := slice_bound n stop in
  take (Z.to_nat (b - a)) (drop (Z.to_nat a) l).

(** [a + b] on one-dimensional arrays, with numpy's broadcasting of a
    one-element operand. *)
Definition np_add (a b : list Q) : res (list Q) :=
  if (length a =? length b)%nat then Ok (zip_with Qplus a b)
  else match a, b with
       | [c], _ => Ok (map (fun v => c + v)%Q b)
       | _, [c] => Ok (map (fun v => v + c)%Q a)
       | _, _ => Raise (ValueError "operands could not be broadcast together")
       end.

(** [a / c] for a scalar [c]. *)
Definition np_div_scalar (a : list Q) (c : Q) : list Q :=
  map (fun v => v / c)%Q a.

Definition QZ (l : list Z) : list Q := map inject_Z l.

(** ** The script *)

(** The three sidebar selections, globals of the script (lines 22-38). *)
Record Selection := {
  xyz_selection : option path;
  topo_selection : option path;
  pbc_selection : option path
}.

Definition set_dimensions (u : Universe) (d : list Q) : Universe :=
  {| topology := topology u; coordinates := coordinates u;
     format := format u; topology_format := topology_format u;
     dimensions := Some d; transformations := transformations u |}.

(** [u.trajectory.add_transformations( *workflow )] *)
Definition add_transformations (u : Universe) (workflow : list transformation)
  : Universe :=
  {| topology := topology u; coordinates := coordinates u;
     format := format u; topology_format := topology_format u;
     dimensions := dimensions u;
     transformations := transformations u ++ workflow |}.

(** [MSD.dim_fac]: set by the estimator from [msd_type]; the script's own
    comment (line 266) fixes the entry the page uses: 3 for ['xyz']. *)
Definition dim_fac (a : Analysis) : res Z :=
  match a with
  | EinsteinMSD _ _ msd_type _ =>
      if decide (msd_type = "xyz") then Ok 3
      else if decide (msd_type ∈ ["xy"; "yz"; "xz"]) then Ok 2
      else if decide (msd_type ∈ ["x"; "y"; "z"]) then Ok 1
      else Raise (ValueError "invalid msd_type")
  | _ => Raise (AttributeError "dim_fac")
  end.

(** [timestep = 100  # this needs to be the actual time between frames] *)
Definition timestep : Z := 100.

(** [lagtimes = np.arange(nframes) * timestep  # make the lag-time axis] *)
Definition lagtimes (nframes : nat) : list Z :=
  map (fun i => i * timestep) (arange nframes).

Section Script.

Variable w : World.

(** *** Widgets and external calls, each logged *)

Definition st_sidebar_selectbox (label : string) (options : list path)
  : M (option path) :=
  let r := selectbox w label options in
  do _ <- emit (EvSelectbox label options r);
  ret r.

Definition st_sidebar_checkbox (label : string) : M bool :=
  let r := checkbox w label in
  do _ <- emit (EvCheckbox label r);
  ret r.

Definition st_sidebar_button (label : string) : M bool :=
  let r := button w label in
  do _ <- emit (EvButton label r);
  ret r.

Definition st_slider (label : string) (min_value max_value : Z)
    (value : Z * Z) : M (Z * Z) :=
  do _ <- emit (EvSlider label min_value max_value value);
  lift (slider w label min_value max_value value).

Definition st_write (body : list fragment) : M unit := emit (EvWrite body).

Definition st_plotly_chart (f : Figure) : M unit := emit (EvPlotlyChart f).

(** [with open(file, "r") as f: f.read()]; [open(None)] is a [TypeError]. *)
Definition open_read (file : option path) : M string :=
  do _ <- emit (EvOpen file);
  match file with
  | None =>
      raise (TypeError "expected str, bytes or os.PathLike object, not NoneType")
  | Some f => lift (read_text w f)
  end.

(** [analysis.run()] *)
Definition analysis_run (a : Analysis) : M Ran :=
  do _ <- emit (EvRun a);
  do r <- lift (run w a);
  ret {| analysis := a; results := r |}.

(** *** [create_u] (lines 41-46) *)
Definition create_u (sel : Selection) : M Universe :=
  do _ <- emit (EvUniverse (topo_selection sel) (xyz_selection sel));
  do _ <- lift (mda_Universe w (topo_selection sel) (xyz_selection sel));
  let u := {| topology := topo_selection sel;
              coordinates := xyz_selection sel;
              format := "XYZ"; topology_format := "MOL2";
              dimensions := None; transformations := [] |} in
  do content <- open_read (pbc_selection sel);
  do box_side <- lift (float_of_str w content);
  ret (set_dimensions u [box_side; box_side; box_side; 90%Q; 90%Q; 90%Q]).

(** *** The analysis each section configures
    (lines 59-73, 124, 197, 284) *)
Definition build (m : metric) (u : Universe) : Analysis :=
  match m with
  | RDF =>
      let water := select_atoms "not resid 201" in
      let workflow := [unwrap atoms; wrap water "residues"] in
      let u := add_transformations u workflow in
      InterRDF u (select_atoms "name O") (select_atoms "name O")
        500 (2.0%Q, 9.0%Q) (1, 1)
  | LDENS => LinearDensity u atoms 0.1%Q
  | MSD => EinsteinMSD u "all" "xyz" true
  | DIEL => DielectricConstant u atoms 298.15%Q true
  end.

(** *** The caching block, the same four lines in every section
    (75-79, 126-130, 199-203, 286-290) *)
Definition cached (m : metric) (a : Analysis) : M Ran :=
  do s <- get_session;
  do _ <- match s !! key m with
          | None => do r <- analysis_run a; store (key m) r
          | Some _ => ret tt
          end;
  do pressed <- st_sidebar_button (recalc_label m);
  do _ <- (if pressed then do r <- analysis_run a; store (key m) r
           else ret tt);
  do s' <- get_session;
  match s' !! key m with
  | Some v => ret v
  | None => raise (KeyError (key m))
  end.

(** *** RDF chart (lines 81-110) *)
Definition present_rdf (rdf_OO : Ran) : M unit :=
  let fig_rdf := empty_figure in
  let exp_path :=
    (st_install_dir w ++ "/tamagotchi/data/RDF_OO_exp.csv")%string in
  do _ <- emit (EvReadCsv exp_path);
  do exp <- lift (read_csv w exp_path);
  let fig_rdf := add_trace fig_rdf
    {| sc_x := fst exp; sc_y := snd exp; sc_name := "Experimental";
       sc_secondary_y := false |} in
  match results rdf_OO with
  | RdfResults bins rdf =>
      let fig_rdf := add_trace fig_rdf
        {| sc_x := bins; sc_y := rdf; sc_name := "Calculated";
           sc_secondary_y := false |} in
      let fig_rdf := update_axis fig_rdf (update_xaxes "r (Å)" None) in
      let fig_rdf :=
        update_axis fig_rdf (update_yaxes "g(r) O-O" None false) in
      st_plotly_chart fig_rdf
  | _ => raise (AttributeError "bins")
  end.

(** *** Linear density chart (lines 132-183) *)
Definition present_ldens (ldens : Ran) : M unit :=
  let fig_ldens := empty_figure in
  match results ldens with
  | LdensResults x y z =>
      do xy <- lift (np_add (mass_density x) (mass_density y));
      do xyz <- lift (np_add xy (mass_density z));
      let average := np_div_scalar xyz 3 in
      let fig_ldens := add_trace fig_ldens
        {| sc_x := hist_bin_edges x; sc_y := mass_density x;
           sc_name := "X"; sc_secondary_y := false |} in
      let fig_ldens := add_trace fig_ldens
        {| sc_x := hist_bin_edges y; sc_y := mass_density y;
           sc_name := "Y"; sc_secondary_y := false |} in
      let fig_ldens := add_trace fig_ldens
        {| sc_x := hist_bin_edges z; sc_y := mass_density z;
           sc_name := "Z"; sc_secondary_y := false |} in
      let fig_ldens := add_trace fig_ldens
        {| sc_x := hist_bin_edges z; sc_y := average;
           sc_name := "Average"; sc_secondary_y := false |} in
      st_plotly_chart fig_ldens
  | _ => raise (AttributeError "x")
  end.

(** *** MSD chart and self-diffusivity fit (lines 205-270) *)
Definition present_msd (MSD : Ran) : M unit :=
  match results MSD with
  | MsdResults msd nframes =>
      do _ <- st_write [Text "Calculating MSD with a timestep of ";
                        IntF timestep; Text " fs"];
      let lagtimes := lagtimes nframes in
      let fig_msd := add_trace empty_figure
        {| sc_x := QZ lagtimes; sc_y := msd; sc_name := "MSD";
           sc_secondary_y := false |} in
      do lag_first <- lift (py_index lagtimes 0);
      do lag_last <- lift (py_index lagtimes (-1));
      do ' (start_time, end_time) <-
        st_slider "Select start and end time (ps):"
          lag_first lag_last (lag_first, lag_last);
      let start_index := Z.quot start_time timestep in
      let end_index := Z.quot end_time timestep in
      let fig_msd := add_trace fig_msd
        {| sc_x := QZ (arange2 start_time end_time);
           sc_y := QZ (arange2 start_time end_time);
           sc_name := "slope = 1"; sc_secondary_y := true |} in
      let fig_msd := update_axis fig_msd
        (update_xaxes "lagtime (fs)"
           (Some (inject_Z start_time, inject_Z end_time))) in
      do y_lo <- lift (py_index msd (start_time / timestep));
      do y_hi <- lift (py_index msd (end_time / timestep));
      let fig_msd := update_axis fig_msd
        (update_yaxes "MSD (Å^2 / fs)" (Some (y_lo, y_hi)) false) in
      let fig_msd := update_axis fig_msd
        (update_yaxes "" (Some (inject_Z start_time, inject_Z end_time))
           true) in
      let xs := QZ (py_slice lagtimes start_index end_index) in
      let ys := py_slice msd start_index end_index in
      do _ <- emit (EvLinregress xs ys);
      do linear_model <- lift (linregress w xs ys);
      let slope := slope linear_model in
      do MSD_dim_fac <- lift (dim_fac (analysis MSD));
      let D := num_div (num_mul slope (Fin 1))
                 (Fin (2 * inject_Z MSD_dim_fac)) in
      do _ <- st_write [Text "Self-diffusivity coefficient: ";
                        Sci3E (num_mul D (Fin (1 / 100000)));
                        Text " m²/s"];
      st_plotly_chart fig_msd
  | _ => raise (AttributeError "timeseries")
  end.

(** *** Dielectric constant (line 292) *)
Definition present_diel (diel : Ran) : M unit :=
  match results diel with
  | DielResults eps_mean =>
      st_write [Text "Dielectric constant: "; QF eps_mean]
  | _ => raise (AttributeError "eps_mean")
  end.

Definition present (m : metric) (v : Ran) : M unit :=
  match m with
  | RDF => present_rdf v
  | LDENS => present_ldens v
  | MSD => present_msd v
  | DIEL => present_diel v
  end.

(** *** One metric's section: checkbox, system, cached run, display *)
Definition metric_section (m : metric) (sel : Selection) : M unit :=
  do ticked <- st_sidebar_checkbox (check_label m);
  if ticked then
    do u <- create_u sel;
    do v <- cached m (build m u);
    present m v
  else ret tt.

(** *** File selection (lines 22-38) *)
Definition select_file (label pattern : string) : M (option path) :=
  let options := path_sort w (glob w pattern) in
  st_sidebar_selectbox label options.

(** *** The whole script, top to bottom *)
Definition page : M unit :=
  do _ <- emit (EvSetPageConfig "wide");
  do xyz <- select_file "Select trajectory file" "**/*.xyz";
  do topo <- select_file "Select topology file" "**/*.mol2";
  do pbc <- select_file "Select pbc file" "**/*.pbc";
  let sel := {| xyz_selection := xyz; topo_selection := topo;
                pbc_selection := pbc |} in
  do _ <- metric_section RDF sel;
  do _ <- metric_section LDENS sel;
  do _ <- metric_section MSD sel;
  metric_section DIEL sel.

(** One script run from a session: the outcome, the session it leaves
    and the external calls it made. *)
Definition script (s : gmap string Ran) : res unit * Page :=
  page {| session := s; log := [] |}.

End Script.

(** Successive script runs of one session: each run meets its own world
    (the widgets as the user left them, the files as they are then) and
    starts from the session the previous run left. *)
Fixpoint reruns (ws : list World) (s : gmap string Ran) : gmap string Ran :=
  match ws with
  | [] => s
  | w :: ws' => reruns ws' (session (snd (script w s)))
  end.

(** ** Reference behaviour of the external numeric routines

    The page only calls these; their code is not part of the repository.
    The definitions below follow their documented behaviour over exact
    rationals and serve to run the page on concrete inputs and to state
    what "least-squares slope" and "mean-squared displacement" mean. *)

Definition Qsum (l : list Q) : Q := foldr Qplus 0%Q l.

Definition Qmean (l : list Q) : Q :=
  (Qsum l / inject_Z (Z.of_nat (length l)))%Q.

(** The ordinary-least-squares slope of [y] against [x]: mean
    cross-deviation over mean square deviation. *)
Definition ols_slope (x y : list Q) : Q :=
  (Qmean (zip_with (fun a b => (a - Qmean x) * (b - Qmean y)) x y) /
   Qmean (map (fun a => (a - Qmean x) * (a - Qmean x)) x))%Q.

Definition sqdev (c : Q) (l : list Q) : Q :=
  Qsum (map (fun a => (a - c) * (a - c))%Q l).

Definition Qlen (l : list Q) : Q := inject_Z (Z.of_nat (length l)).

(** [scipy.stats.linregress(x, y)]: empty input and identical abscissae
    are [ValueError]s; otherwise the slope is the quotient of the mean
    cross-deviation by the mean square deviation of [x], which for a single
    point is [0/0]. *)
Definition scipy_linregress (x y : list Q) : res LinregressResult :=
  match x, y with
  | [], _ | _, [] => Raise (ValueError "Inputs must not be empty.")
  | x0 :: _, _ :: _ =>
      if negb (length x =? length y)%nat then
        Raise (ValueError "x and y must have the same length.")
      else if (1 <? length x)%nat && forallb (fun v => Qeq_bool v x0) x then
        Raise (ValueError
          "Cannot calculate a linear regression if all x values are identical")
      else
        let xmean := Qmean x in
        let ymean := Qmean y in
        let ssxm := Qmean (map (fun a => (a - xmean) * (a - xmean))%Q x) in
        let ssxym :=
          Qmean (zip_with (fun a b => (a - xmean) * (b - ymean))%Q x y) in
        let slope := num_div (Fin ssxym) (Fin ssxm) in
        let intercept := num_sub (Fin ymean) (num_mul slope (Fin xmean)) in
        Ok {| slope := slope; intercept := intercept |}
  end.

(** Modelled from the spec: a position in 3D, as the MSD estimator (code
    of the external analysis library, not in the repository) reads it from
    each atom of each frame. *)
Definition vec3 : Type := Q * Q * Q.

(** Modelled from the spec: the squared 3D distance between two positions
    (the "squared distance particles travel"). *)
Definition sqdist (a b : vec3) : Q :=
  let '(ax, ay, az) := a in
  let '(bx, b_y, bz) := b in
  ((ax - bx) * (ax - bx) + (ay - b_y) * (ay - b_y) + (az - bz) * (az - bz))%Q.

(** Modelled from the spec: the squared displacements over [lag] frames,
    of every atom from every time origin. *)
Definition displacements (traj : list (list vec3)) (lag : nat) : list Q :=
  concat (zip_with (zip_with sqdist) traj (drop lag traj)).

(** Modelled from the spec: the mean-squared displacement at one lag, the
    average of the above. *)
Definition msd_at (traj : list (list vec3)) (lag : nat) : Q :=
  Qmean (displacements traj lag).

(** Modelled from the spec: the Einstein mean-squared-displacement
    estimator of the external analysis library ([msd.EinsteinMSD(u,
    select="all", msd_type="xyz").run()], whose code is not in the
    repository). Following the spec's words, it yields one value per frame,
    the value at lag [m] being the average, over all atoms and all time
    origins, of the squared 3D distance travelled over [m] frames. *)
Definition einstein_msd (traj : list (list vec3)) : Results :=
  MsdResults (map (msd_at traj) (seq 0 (length traj))) (length traj).

(** ** A concrete world, to run the page on explicit inputs

    The working directory holds the given files, each selectbox shows its
    first option, the boxes in [ticked] are ticked, the buttons in [pressed]
    were just pressed, the slider is at [window] (or untouched), the loader
    rejects an absent file as MDAnalysis does an absent topology, the box
    file reads "18.0", the MSD estimator returns [series], and the
    regression is the reference one. *)
Definition example_world (xyzs mol2s pbcs : list path)
    (ticked pressed : list metric) (window : option (Z * Z))
    (series : list Q) : World :=
  {| glob pattern :=
       if decide (pattern = "**/*.xyz") then xyzs
       else if decide (pattern = "**/*.mol2") then mol2s
       else if decide (pattern = "**/*.pbc") then pbcs
       else [];
     path_sort l := l;
     selectbox _ options := head options;
     checkbox l := bool_decide (Exists (fun m => l = check_label m) ticked);
     button l := bool_decide (Exists (fun m => l = recalc_label m) pressed);
     slider _ _ _ value := Ok (default value window);
     mda_Universe topo xyz :=
       match topo, xyz with
       | Some _, Some _ => Ok tt
       | _, _ => Raise (TypeError "Topology argument required to make Universe.")
       end;
     read_text _ := Ok "18.0";
     float_of_str _ := Ok 18%Q;
     st_install_dir := "/site-packages";
     read_csv _ := Ok ([], []);
     run a :=
       match a with
       | InterRDF _ _ _ _ _ _ => Ok (RdfResults [] [])
       | LinearDensity _ _ _ =>
           let ax := {| mass_density := [1%Q; 1%Q];
                        hist_bin_edges := [0%Q; 9%Q; 18%Q] |} in
           Ok (LdensResults ax ax ax)
       | EinsteinMSD _ _ _ _ => Ok (MsdResults series (length series))
       | DielectricConstant _ _ _ _ => Ok (DielResults 78%Q)
       end;
     linregress := scipy_linregress |}.

(** ** Notions used to state the properties *)

Definition blank : Page := {| session := ∅; log := [] |}.

Definition logged (p : Page) (l : list event) : Page :=
  {| session := session p; log := log p ++ l |}.

(** Events that neither run an analysis nor are a recalculate button. *)
Definition passive (e : event) : Prop :=
  match e with
  | EvRun _ | EvButton _ _ => False
  | _ => True
  end.

(** A computation is calm when it never looks at the page state: it has one
    outcome and one list of calls, all of them passive, and leaves the
    session alone. *)
Definition calm {A} (c : M A) : Prop :=
  exists r l, Forall passive l /\ forall p, c p = (r, logged p l).

(** The selection a run makes, the System it builds from it and the calls
    the build makes: all functions of the world alone. *)
Definition selection (w : World) : Selection :=
  {| xyz_selection :=
       selectbox w "Select trajectory file" (path_sort w (glob w "**/*.xyz"));
     topo_selection :=
       selectbox w "Select topology file" (path_sort w (glob w "**/*.mol2"));
     pbc_selection :=
       selectbox w "Select pbc file" (path_sort w (glob w "**/*.pbc")) |}.

Definition system (w : World) (sel : Selection) : res Universe :=
  fst (create_u w sel blank).

Definition system_calls (w : World) (sel : Selection) : list event :=
  log (snd (create_u w sel blank)).

(** The sections of the page, run in sequence. *)
Fixpoint run_sections (w : World) (ms : list metric) (sel : Selection)
  : M unit :=
  match ms with
  | [] => ret tt
  | m :: ms' => do _ <- metric_section w m sel; run_sections w ms' sel
  end.

(** What a stretch of the run does to the cache entry of metric [m]:
    [l] are the calls it adds to the log. *)
Definition cache_effect (w : World) (sel : Selection) (m : metric)
    (p : Page) (out : res unit * Page) (l : list event) : Prop :=
  log (snd out) = log p ++ l /\
  (forall a, In (EvRun a) l ->
     exists u, system w sel = Ok u /\ a = build (metric_of a) u) /\
  (forall v, session p !! key m = Some v ->
     button w (recalc_label m) = false ->
     session (snd out) !! key m = Some v /\
     forall a, In (EvRun a) l -> metric_of a <> m) /\
  (forall b, In (EvButton (recalc_label m) b) l ->
     session p !! key m = None \/ b = true ->
     exists u, system w sel = Ok u /\ In (EvRun (build m u)) l /\
       match run w (build m u) with
       | Ok x => session (snd out) !! key m
                 = Some {| analysis := build m u; results := x |}
       | Raise e => fst out = Raise e /\
                    session (snd out) !! key m = session p !! key m
       end) /\
  (session (snd out) !! key m = session p !! key m \/
   exists u x, system w sel = Ok u /\ run w (build m u) = Ok x /\
     In (EvRun (build m u)) l /\
     session (snd out) !! key m
     = Some {| analysis := build m u; results := x |}).

(** A stretch that leaves metric [m] alone. *)
Definition cache_untouched (w : World) (sel : Selection) (m : metric)
    (p : Page) (out : res unit * Page) (l : list event) : Prop :=
  log (snd out) = log p ++ l /\
  (forall a, In (EvRun a) l ->
     exists u, system w sel = Ok u /\ a = build (metric_of a) u) /\
  session (snd out) !! key m = session p !! key m /\
  (forall a, In (EvRun a) l -> metric_of a <> m) /\
  (forall b, ~ In (EvButton (recalc_label m) b) l).

(** A computation emits only [G]-events when every call it adds to the
    log satisfies [G], whatever page it starts from. *)
Definition emits {A} (G : event -> Prop) (c : M A) : Prop :=
  forall p, exists l, log (snd (c p)) = log p ++ l /\ Forall G l.

(** The calls by which a section shows something: reads of the reference
    data, the slider, the regression, text and charts. *)
Definition display_event (e : event) : Prop :=
  match e with
  | EvReadCsv _ | EvWrite _ | EvSlider _ _ _ _ | EvLinregress _ _
  | EvPlotlyChart _ => True
  | _ => False
  end.

(** The calls of the System build. *)
Definition build_event (e : event) : Prop :=
  match e with
  | EvUniverse _ _ | EvOpen _ => True
  | _ => False
  end.

(** The labels of the checkboxes a run has rendered, in order. *)
Definition rendered (l : list event) : list string :=
  flat_map (fun e => match e with EvCheckbox lb _ => [lb] | _ => [] end) l.

(** The metrics in the order of their sections in the script. *)
Definition sections : list metric := [RDF; LDENS; MSD; DIEL].

(** A cache value with a history: the result some run among [W] got back
    from the metric's analysis, built on the System of that run's
    selection. *)
Definition stored_by (W : World -> Prop) (m : metric) (v : Ran) : Prop :=
  exists w u x,
    W w /\ system w (selection w) = Ok u /\ run w (build m u) = Ok x /\
    v = {| analysis := build m u; results := x |}.

(** * Properties *)

(** ** Reasoning about page computations *)

Lemma logged_nil p : logged p [] = p.
Proof. destruct p; unfold logged; simpl; by rewrite app_nil_r. Qed.

Lemma logged_logged p l1 l2 : logged (logged p l1) l2 = logged p (l1 ++ l2).
Proof. unfold logged; simpl; by rewrite app_assoc. Qed.

Lemma calm_ret {A} (a : A) : calm (ret a).
Proof. exists (Ok a), []. split; [constructor|]. intros p. by rewrite logged_nil. Qed.

Lemma calm_raise {A} (e : exn) : calm (@raise A e).
Proof. exists (Raise e), []. split; [constructor|]. intros p. by rewrite logged_nil. Qed.

Lemma calm_lift {A} (r : res A) : calm (lift r).
Proof. exists r, []. split; [constructor|]. intros p. by rewrite logged_nil. Qed.

Lemma calm_emit (e : event) : passive e -> calm (emit e).
Proof. intros He. exists (Ok tt), [e]. split; [by repeat constructor|]. done. Qed.

Lemma calm_bind {A B} (c : M A) (k : A -> M B) :
  calm c -> (forall a, calm (k a)) -> calm (bind c k).
Proof.
  intros (r & l & Hl & Hc) Hk. destruct r as [a|e].
  - destruct (Hk a) as (r' & l' & Hl' & Hka).
    exists r', (l ++ l'). split; [by apply Forall_app|].
    intros p. unfold bind. by rewrite Hc, Hka, logged_logged.
  - exists (Raise e), l. split; [done|]. intros p. unfold bind. by rewrite Hc.
Qed.

Ltac calm_step :=
  first
    [ apply calm_ret | apply calm_raise | apply calm_lift
    | apply calm_emit; exact I
    | apply calm_bind; [| intros ?]
    | match goal with
      | |- calm (match ?x with _ => _ end) => destruct x
      | |- calm (let '(_, _) := ?x in _) => destruct x
      end ].

Ltac calm_tac := repeat calm_step.

Section Calm.

Variable w : World.

Lemma create_u_calm sel : calm (create_u w sel).
Proof. unfold create_u, open_read. calm_tac. Qed.

Lemma present_calm m v : calm (present w m v).
Proof.
  destruct m; unfold present, present_rdf, present_ldens, present_msd,
    present_diel, st_write, st_slider, st_plotly_chart; calm_tac.
Qed.

End Calm.

(** ** Python helpers *)

Lemma lookup_map {A B} (f : A -> B) (l : list A) (i : nat) :
  map f l !! i = f <$> (l !! i).
Proof. revert i; induction l as [|a l IH]; intros [|i]; simpl; auto. Qed.

Lemma arange_length n : length (arange n) = n.
Proof. unfold arange. by rewrite length_map, length_seq. Qed.

Lemma arange_lookup n i : (i < n)%nat -> arange n !! i = Some (Z.of_nat i).
Proof. intros H. unfold arange. by rewrite lookup_map, lookup_seq_lt. Qed.

Lemma lagtimes_length n : length (lagtimes n) = n.
Proof. unfold lagtimes. by rewrite length_map, arange_length. Qed.

Lemma lagtimes_lookup n i :
  (i < n)%nat -> lagtimes n !! i = Some (Z.of_nat i * timestep).
Proof. intros H. unfold lagtimes. by rewrite lookup_map, arange_lookup. Qed.

Lemma py_index_nonneg {A} (l : list A) (i : Z) (a : A) :
  0 <= i -> l !! Z.to_nat i = Some a -> py_index l i = Ok a.
Proof.
  intros Hi Hl. unfold py_index.
  assert (Z.to_nat i < length l)%nat by (eapply lookup_lt_Some; eauto).
  replace (i <? 0) with false by (symmetry; apply Z.ltb_ge; lia).
  replace (0 <=? i) with true by (symmetry; apply Z.leb_le; lia).
  replace (i <? Z.of_nat (length l)) with true
    by (symmetry; apply Z.ltb_lt; lia).
  simpl. by rewrite Hl.
Qed.

Lemma py_index_ok_inv {A} (l : list A) (i : Z) (a : A) :
  py_index l i = Ok a ->
  exists j, (j < length l)%nat /\ l !! j = Some a /\
    Z.of_nat j = if i <? 0 then i + Z.of_nat (length l) else i.
Proof.
  unfold py_index. set (j := if i <? 0 then _ else _).
  destruct (0 <=? j) eqn:H0; [|discriminate].
  destruct (j <? Z.of_nat (length l)) eqn:H1; [|discriminate]. simpl.
  destruct (l !! Z.to_nat j) eqn:Hl; [|discriminate].
  intros [= ->]. exists (Z.to_nat j).
  apply Z.leb_le in H0. apply Z.ltb_lt in H1.
  split; [lia|]. split; [done|lia].
Qed.

Lemma lagtimes_first n t : py_index (lagtimes n) 0 = Ok t -> t = 0 /\ (1 <= n)%nat.
Proof.
  intros H. apply py_index_ok_inv in H as (j & Hj & Hl & Hi). simpl in Hi.
  rewrite lagtimes_length in Hj.
  rewrite lagtimes_lookup in Hl by done. injection Hl as <-. lia.
Qed.

Lemma lagtimes_last n t :
  py_index (lagtimes n) (-1) = Ok t ->
  t = (Z.of_nat n - 1) * timestep /\ (1 <= n)%nat.
Proof.
  intros H. apply py_index_ok_inv in H as (j & Hj & Hl & Hi). simpl in Hi.
  rewrite lagtimes_length in Hj, Hi.
  rewrite lagtimes_lookup in Hl by done. injection Hl as <-.
  split; [|lia]. f_equal. lia.
Qed.

Lemma lagtimes_ends n :
  (1 <= n)%nat ->
  py_index (lagtimes n) 0 = Ok 0 /\
  py_index (lagtimes n) (-1) = Ok ((Z.of_nat n - 1) * timestep).
Proof.
  intros Hn. split.
  - apply py_index_nonneg; [lia|]. rewrite lagtimes_lookup by lia. done.
  - unfold py_index. rewrite lagtimes_length. simpl.
    replace (0 <=? -1 + Z.of_nat n) with true by (symmetry; apply Z.leb_le; lia).
    replace (-1 + Z.of_nat n <? Z.of_nat n) with true
      by (symmetry; apply Z.ltb_lt; lia).
    simpl. rewrite lagtimes_lookup by lia. do 2 f_equal. lia.
Qed.

Lemma py_slice_inner {A} (l : list A) (a b : Z) :
  0 <= a <= b -> b <= Z.of_nat (length l) ->
  py_slice l a b = take (Z.to_nat (b - a)) (drop (Z.to_nat a) l) /\
  length (py_slice l a b) = Z.to_nat (b - a) /\
  forall k, (k < Z.to_nat (b - a))%nat ->
    py_slice l a b !! k = l !! (Z.to_nat a + k)%nat.
Proof.
  intros Hab Hb. unfold py_slice, slice_bound.
  replace (a <? 0) with false by (symmetry; apply Z.ltb_ge; lia).
  replace (b <? 0) with false by (symmetry; apply Z.ltb_ge; lia).
  rewrite !Z.min_l by lia. split; [done|]. split.
  - rewrite length_take, length_drop. lia.
  - intros k Hk. by rewrite lookup_take_lt, lookup_drop.
Qed.

Lemma window_indices (n st et : Z) :
  0 <= st <= et -> et <= (n - 1) * timestep ->
  Z.quot st timestep = st / timestep /\
  Z.quot et timestep = et / timestep /\
  0 <= st / timestep <= et / timestep /\ et / timestep <= n - 1.
Proof.
  unfold timestep. intros H1 H2.
  rewrite !Z.quot_div_nonneg by lia.
  split; [done|]. split; [done|]. split.
  - split; [apply Z.div_pos; lia | apply Z.div_le_mono; lia].
  - apply Z.div_le_upper_bound; lia.
Qed.

(** ** Frame indices of the fit window *)

Lemma window_lookups (msd : list Q) (n : nat) (st et : Z) :
  length msd = n ->
  0 <= st <= et ->
  et <= (Z.of_nat n - 1) * timestep ->
  exists y_lo y_hi,
    py_index msd (st / timestep) = Ok y_lo /\
    py_index msd (et / timestep) = Ok y_hi.
Proof.
  intros Hlen Hst Het.
  destruct (window_indices (Z.of_nat n) st et) as (_ & _ & Hlo & Hhi);
    [lia | lia |].
  destruct (lookup_lt_is_Some_2 msd (Z.to_nat (st / timestep))) as [y_lo Hy];
    [lia|].
  destruct (lookup_lt_is_Some_2 msd (Z.to_nat (et / timestep))) as [y_hi Hy'];
    [lia|].
  exists y_lo, y_hi. split; apply py_index_nonneg; auto; lia.
Qed.

(** C10. For a slider selection between the first and the last lag-time,
    the two indices used for the y-axis range ([start_time // timestep],
    [end_time // timestep]) and the two used to slice the series for the
    regression ([start_index], [end_index]) lie in [0, n_frames - 1]: both
    look-ups into the MSD series succeed, and the two slices are the frames
    from [start_index] up to [end_index], read without any clipping. *)
Theorem fit_window_indices_in_bounds (msd : list Q) (nframes : nat)
    (lag_first lag_last start_time end_time : Z) :
  length msd = nframes ->
  py_index (lagtimes nframes) 0 = Ok lag_first ->
  py_index (lagtimes nframes) (-1) = Ok lag_last ->
  lag_first <= start_time <= end_time ->
  end_time <= lag_last ->
  let start_index := Z.quot start_time timestep in
  let end_index := Z.quot end_time timestep in
  0 <= start_time / timestep <= Z.of_nat nframes - 1 /\
  0 <= end_time / timestep <= Z.of_nat nframes - 1 /\
  (exists y_lo y_hi,
      py_index msd (start_time / timestep) = Ok y_lo /\
      py_index msd (end_time / timestep) = Ok y_hi) /\
  (0 <= start_index <= end_index /\ end_index <= Z.of_nat nframes - 1) /\
  forall k, (k < Z.to_nat (end_index - start_index))%nat ->
    exists t y,
      lagtimes nframes !! (Z.to_nat start_index + k)%nat = Some t /\
      msd !! (Z.to_nat start_index + k)%nat = Some y /\
      py_slice (lagtimes nframes) start_index end_index !! k = Some t /\
      py_slice msd start_index end_index !! k = Some y.
Proof.
  intros Hlen H0 H1 Hst Het start_index end_index.
  apply lagtimes_first in H0 as [-> Hn].
  apply lagtimes_last in H1 as [-> _].
  destruct (window_indices (Z.of_nat nframes) start_time end_time)
    as (Hqs & Hqe & Hlo & Hhi); [lia | lia |].
  subst start_index end_index. rewrite Hqs, Hqe.
  assert (Hin : forall i, 0 <= i <= Z.of_nat nframes - 1 ->
            exists y, msd !! Z.to_nat i = Some y).
  { intros i Hi. apply lookup_lt_is_Some. lia. }
  split; [lia|]. split; [lia|]. split.
  - destruct (Hin (start_time / timestep)) as [y_lo Hy]; [lia|].
    destruct (Hin (end_time / timestep)) as [y_hi Hy']; [lia|].
    exists y_lo, y_hi. split; apply py_index_nonneg; auto; lia.
  - split; [lia|]. intros k Hk.
    destruct (py_slice_inner (lagtimes nframes) (start_time / timestep)
                (end_time / timestep)) as (_ & _ & Hx);
      [lia | rewrite lagtimes_length; lia |].
    destruct (py_slice_inner msd (start_time / timestep)
                (end_time / timestep)) as (_ & _ & Hy); [lia | lia |].
    rewrite Hx, Hy by done.
    destruct (Hin (start_time / timestep + Z.of_nat k)) as [y Hy']; [lia|].
    replace (Z.to_nat (start_time / timestep + Z.of_nat k))
      with (Z.to_nat (start_time / timestep) + k)%nat in Hy' by lia.
    exists ((Z.of_nat (Z.to_nat (start_time / timestep) + k)) * timestep), y.
    rewrite lagtimes_lookup by lia. done.
Qed.

Lemma fit_window_indices_in_bounds_witness :
  0 <= 100 / timestep <= Z.of_nat 4 - 1 /\
  0 <= 250 / timestep <= Z.of_nat 4 - 1 /\
  (exists y_lo y_hi,
      py_index [0; 600; 1200; 1800]%Q (100 / timestep) = Ok y_lo /\
      py_index [0; 600; 1200; 1800]%Q (250 / timestep) = Ok y_hi) /\
  (0 <= Z.quot 100 timestep <= Z.quot 250 timestep /\
   Z.quot 250 timestep <= Z.of_nat 4 - 1) /\
  forall k, (k < Z.to_nat (Z.quot 250 timestep - Z.quot 100 timestep))%nat ->
    exists t y,
      lagtimes 4 !! (Z.to_nat (Z.quot 100 timestep) + k)%nat = Some t /\
      [0; 600; 1200; 1800]%Q !! (Z.to_nat (Z.quot 100 timestep) + k)%nat
        = Some y /\
      py_slice (lagtimes 4) (Z.quot 100 timestep) (Z.quot 250 timestep) !! k
        = Some t /\
      py_slice [0; 600; 1200; 1800]%Q (Z.quot 100 timestep)
        (Z.quot 250 timestep) !! k = Some y.
Proof.
  apply (fit_window_indices_in_bounds [0; 600; 1200; 1800]%Q 4 0 300 100 250);
    [reflexivity | reflexivity | reflexivity | lia | lia].
Defined.

(** ** The MSD section, step by step *)

Lemma window_slices (msd : list Q) (n : nat) (st et : Z) :
  length msd = n ->
  0 <= st <= et ->
  et <= (Z.of_nat n - 1) * timestep ->
  let si := st / 100 in
  let ei := et / 100 in
  let xs := QZ (py_slice (lagtimes n) (Z.quot st timestep) (Z.quot et timestep)) in
  let ys := py_slice msd (Z.quot st timestep) (Z.quot et timestep) in
  Z.quot st timestep = si /\ Z.quot et timestep = ei /\
  (0 <= si <= ei /\ ei <= Z.of_nat n - 1) /\
  length xs = Z.to_nat (ei - si) /\
  length ys = Z.to_nat (ei - si) /\
  forall k, (k < Z.to_nat (ei - si))%nat ->
    xs !! k = Some (inject_Z ((si + Z.of_nat k) * 100)) /\
    ys !! k = msd !! (Z.to_nat si + k)%nat.
Proof.
  intros Hlen Hst Het si ei.
  destruct (window_indices (Z.of_nat n) st et) as (Hqs & Hqe & Hlo & Hhi);
    [lia | lia |].
  change (st / timestep) with si in *. change (et / timestep) with ei in *.
  rewrite Hqs, Hqe. cbv zeta.
  destruct (py_slice_inner (lagtimes n) si ei) as (_ & Hlx & Hx);
    [lia | rewrite lagtimes_length; lia |].
  destruct (py_slice_inner msd si ei) as (_ & Hly & Hy); [lia | lia |].
  split; [done|]. split; [done|]. split; [lia|].
  split; [unfold QZ; by rewrite length_map|]. split; [done|].
  intros k Hk. split; [|by apply Hy].
  unfold QZ. rewrite lookup_map, Hx by done.
  rewrite lagtimes_lookup by lia. simpl. do 2 f_equal. unfold timestep. lia.
Qed.

Lemma present_msd_run (w : World) (v : Ran) (p : Page) (msd : list Q)
    (n : nat) (st et : Z) (y_lo y_hi : Q) :
  results v = MsdResults msd n ->
  (1 <= n)%nat ->
  slider w "Select start and end time (ps):" 0 ((Z.of_nat n - 1) * timestep)
    (0, (Z.of_nat n - 1) * timestep) = Ok (st, et) ->
  py_index msd (st / timestep) = Ok y_lo ->
  py_index msd (et / timestep) = Ok y_hi ->
  let xs := QZ (py_slice (lagtimes n) (Z.quot st timestep) (Z.quot et timestep)) in
  let ys := py_slice msd (Z.quot st timestep) (Z.quot et timestep) in
  let pre :=
    [EvWrite [Text "Calculating MSD with a timestep of "; IntF timestep;
              Text " fs"];
     EvSlider "Select start and end time (ps):" 0 ((Z.of_nat n - 1) * timestep)
       (0, (Z.of_nat n - 1) * timestep);
     EvLinregress xs ys] in
  match linregress w xs ys with
  | Raise e => present_msd w v p = (Raise e, logged p pre)
  | Ok lm =>
      match dim_fac (analysis v) with
      | Raise e => present_msd w v p = (Raise e, logged p pre)
      | Ok df =>
          let D := num_div (num_mul (slope lm) (Fin 1))
                     (Fin (2 * inject_Z df)) in
          exists fig,
            present_msd w v p =
              (Ok tt,
               logged p
                 (pre ++
                  [EvWrite [Text "Self-diffusivity coefficient: ";
                            Sci3E (num_mul D (Fin (1 / 100000)));
                            Text " m²/s"];
                   EvPlotlyChart fig]))
      end
  end.
Proof.
  intros Hres Hn Hsl Hlo Hhi xs ys pre.
  destruct (lagtimes_ends n Hn) as [H0 H1].
  unfold present_msd. rewrite Hres.
  unfold st_write, st_slider, st_plotly_chart. unfold bind, emit, lift.
  rewrite H0, H1. cbn [session log]. rewrite Hsl. cbv beta iota.
  rewrite Hlo, Hhi. cbv beta iota. fold xs ys.
  destruct (linregress w xs ys) as [lm|e].
  - destruct (dim_fac (analysis v)) as [df|e].
    + eexists. unfold logged, pre. cbn [session log].
      rewrite <- !app_assoc. reflexivity.
    + unfold logged, pre. cbn [session log]. by rewrite <- !app_assoc.
  - unfold logged, pre. cbn [session log]. by rewrite <- !app_assoc.
Qed.

(** C5. The slider is created over [lagtimes[0], lagtimes[-1]] with the
    full range as its default; for the selection it returns (kept by the
    widget inside that range), both times become frame indices by integer
    division by the timestep of 100, and the one regression call of the
    section receives exactly the lag-times and MSD values of the frames
    from the start index up to, not including, the end index. *)
Theorem fit_window_regression (w : World) (v : Ran) (p : Page)
    (msd : list Q) (n : nat) (lag_first lag_last st et : Z) :
  results v = MsdResults msd n ->
  length msd = n ->
  py_index (lagtimes n) 0 = Ok lag_first ->
  py_index (lagtimes n) (-1) = Ok lag_last ->
  slider w "Select start and end time (ps):" lag_first lag_last
    (lag_first, lag_last) = Ok (st, et) ->
  lag_first <= st <= et ->
  et <= lag_last ->
  let start_index := st / 100 in
  let end_index := et / 100 in
  exists xs ys rest,
    log (snd (present_msd w v p)) =
      log p ++
      [EvWrite [Text "Calculating MSD with a timestep of "; IntF timestep;
                Text " fs"];
       EvSlider "Select start and end time (ps):" lag_first lag_last
         (lag_first, lag_last);
       EvLinregress xs ys] ++ rest /\
    (rest = [] \/ exists body fig, rest = [EvWrite body; EvPlotlyChart fig]) /\
    xs = QZ (py_slice (lagtimes n) (Z.quot st timestep) (Z.quot et timestep)) /\
    ys = py_slice msd (Z.quot st timestep) (Z.quot et timestep) /\
    Z.quot st timestep = start_index /\
    Z.quot et timestep = end_index /\
    length xs = Z.to_nat (end_index - start_index) /\
    length ys = Z.to_nat (end_index - start_index) /\
    forall k, (k < Z.to_nat (end_index - start_index))%nat ->
      xs !! k = Some (inject_Z ((start_index + Z.of_nat k) * 100)) /\
      ys !! k = msd !! (Z.to_nat start_index + k)%nat.
Proof.
  intros Hres Hlen H0 H1 Hsl Hst Het start_index end_index.
  apply lagtimes_first in H0 as [-> Hn].
  apply lagtimes_last in H1 as [-> _].
  destruct (window_lookups msd n st et Hlen Hst Het)
    as (y_lo & y_hi & Hylo & Hyhi).
  destruct (window_slices msd n st et Hlen Hst Het)
    as (Hqs & Hqe & _ & Hshape).
  pose proof (present_msd_run w v p msd n st et y_lo y_hi Hres Hn Hsl
                Hylo Hyhi) as Hrun.
  cbv zeta in Hrun.
  set (xs := QZ (py_slice (lagtimes n) (Z.quot st timestep)
                   (Z.quot et timestep))) in *.
  set (ys := py_slice msd (Z.quot st timestep) (Z.quot et timestep)) in *.
  exists xs, ys.
  destruct (linregress w xs ys) as [lm|e].
  - destruct (dim_fac (analysis v)) as [df|e].
    + destruct Hrun as [fig Hrun]. eexists. rewrite Hrun.
      split; [reflexivity|]. split; [right; eauto|].
      do 4 (split; [done|]). exact Hshape.
    + exists []. rewrite Hrun.
      split; [reflexivity|]. split; [by left|].
      do 4 (split; [done|]). exact Hshape.
  - exists []. rewrite Hrun.
    split; [reflexivity|]. split; [by left|].
    do 4 (split; [done|]). exact Hshape.
Qed.

Lemma fit_window_regression_witness :
  let w := example_world ["traj.xyz"] ["topo.mol2"] ["box.pbc"] [MSD] []
             (Some (100, 250)) [0; 600; 1200; 1800]%Q in
  let v := {| analysis := EinsteinMSD
                {| topology := None; coordinates := None; format := "XYZ";
                   topology_format := "MOL2"; dimensions := None;
                   transformations := [] |} "all" "xyz" true;
              results := MsdResults [0; 600; 1200; 1800]%Q 4 |} in
  exists xs ys rest,
    log (snd (present_msd w v blank)) =
      log blank ++
      [EvWrite [Text "Calculating MSD with a timestep of "; IntF timestep;
                Text " fs"];
       EvSlider "Select start and end time (ps):" 0 300 (0, 300);
       EvLinregress xs ys] ++ rest /\
    (rest = [] \/ exists body fig, rest = [EvWrite body; EvPlotlyChart fig]) /\
    xs = QZ (py_slice (lagtimes 4) (Z.quot 100 timestep) (Z.quot 250 timestep)) /\
    ys = py_slice [0; 600; 1200; 1800]%Q (Z.quot 100 timestep)
           (Z.quot 250 timestep) /\
    Z.quot 100 timestep = 100 / 100 /\
    Z.quot 250 timestep = 250 / 100 /\
    length xs = Z.to_nat (250 / 100 - 100 / 100) /\
    length ys = Z.to_nat (250 / 100 - 100 / 100) /\
    forall k, (k < Z.to_nat (250 / 100 - 100 / 100))%nat ->
      xs !! k = Some (inject_Z ((100 / 100 + Z.of_nat k) * 100)) /\
      ys !! k = [0; 600; 1200; 1800]%Q !! (Z.to_nat (100 / 100) + k)%nat.
Proof.
  intros w v.
  apply (fit_window_regression w v blank [0; 600; 1200; 1800]%Q 4 0 300 100 250);
    [reflexivity | reflexivity | reflexivity | reflexivity | reflexivity
    | lia | lia].
Defined.

(** ** The degenerate fit window *)

(** C1 (as the code has it). The page has no check of its own for a window
    of zero or one frame ([end_index - start_index <= 1]): it hands the
    empty or one-point sub-series to [linregress] like any other. If the
    routine raises, the run ends there in that uncaught exception; if it
    returns, the page converts and displays whatever slope it got (a NaN
    stays a NaN) and draws the chart. Nothing else is shown. *)
Theorem narrow_window_unguarded (w : World) (v : Ran) (p : Page)
    (u : Universe) (msd : list Q) (n : nat) (st et : Z) :
  analysis v = build MSD u ->
  results v = MsdResults msd n ->
  length msd = n ->
  (1 <= n)%nat ->
  slider w "Select start and end time (ps):" 0 ((Z.of_nat n - 1) * timestep)
    (0, (Z.of_nat n - 1) * timestep) = Ok (st, et) ->
  0 <= st <= et ->
  et <= (Z.of_nat n - 1) * timestep ->
  Z.quot et timestep - Z.quot st timestep <= 1 ->
  let xs := QZ (py_slice (lagtimes n) (Z.quot st timestep) (Z.quot et timestep)) in
  let ys := py_slice msd (Z.quot st timestep) (Z.quot et timestep) in
  let pre :=
    [EvWrite [Text "Calculating MSD with a timestep of "; IntF timestep;
              Text " fs"];
     EvSlider "Select start and end time (ps):" 0 ((Z.of_nat n - 1) * timestep)
       (0, (Z.of_nat n - 1) * timestep);
     EvLinregress xs ys] in
  (length ys <= 1)%nat /\
  length xs = length ys /\
  match linregress w xs ys with
  | Raise e => present_msd w v p = (Raise e, logged p pre)
  | Ok lm =>
      exists fig,
        present_msd w v p =
          (Ok tt,
           logged p
             (pre ++
              [EvWrite [Text "Self-diffusivity coefficient: ";
                        Sci3E (num_mul
                                 (num_div (num_mul (slope lm) (Fin 1))
                                    (Fin (2 * inject_Z 3)))
                                 (Fin (1 / 100000)));
                        Text " m²/s"];
               EvPlotlyChart fig]))
  end.
Proof.
  intros Han Hres Hlen Hn Hsl Hst Het Hnarrow xs ys pre.
  destruct (window_lookups msd n st et Hlen Hst Het)
    as (y_lo & y_hi & Hylo & Hyhi).
  destruct (window_slices msd n st et Hlen Hst Het)
    as (Hqs & Hqe & _ & Hlx & Hly & _).
  fold xs ys in Hlx, Hly. rewrite Hqs, Hqe in Hnarrow.
  split; [lia|]. split; [lia|].
  pose proof (present_msd_run w v p msd n st et y_lo y_hi Hres Hn Hsl
                Hylo Hyhi) as Hrun.
  cbv zeta in Hrun. fold xs ys pre in Hrun.
  rewrite Han in Hrun. exact Hrun.
Qed.

Lemma narrow_window_unguarded_witness :
  let w := example_world ["traj.xyz"] ["topo.mol2"] ["box.pbc"] [MSD] []
             (Some (100, 199)) [0; 600; 1200; 1800]%Q in
  let u := {| topology := None; coordinates := None; format := "XYZ";
              topology_format := "MOL2"; dimensions := None;
              transformations := [] |} in
  let v := {| analysis := build MSD u;
              results := MsdResults [0; 600; 1200; 1800]%Q 4 |} in
  let xs := QZ (py_slice (lagtimes 4) (Z.quot 100 timestep)
                  (Z.quot 199 timestep)) in
  let ys := py_slice [0; 600; 1200; 1800]%Q (Z.quot 100 timestep)
              (Z.quot 199 timestep) in
  let pre :=
    [EvWrite [Text "Calculating MSD with a timestep of "; IntF timestep;
              Text " fs"];
     EvSlider "Select start and end time (ps):" 0 ((Z.of_nat 4 - 1) * timestep)
       (0, (Z.of_nat 4 - 1) * timestep);
     EvLinregress xs ys] in
  (length ys <= 1)%nat /\
  length xs = length ys /\
  match linregress w xs ys with
  | Raise e => present_msd w v blank = (Raise e, logged blank pre)
  | Ok lm =>
      exists fig,
        present_msd w v blank =
          (Ok tt,
           logged blank
             (pre ++
              [EvWrite [Text "Self-diffusivity coefficient: ";
                        Sci3E (num_mul
                                 (num_div (num_mul (slope lm) (Fin 1))
                                    (Fin (2 * inject_Z 3)))
                                 (Fin (1 / 100000)));
                        Text " m²/s"];
               EvPlotlyChart fig]))
  end.
Proof.
  intros w u v.
  apply (narrow_window_unguarded w v blank u [0; 600; 1200; 1800]%Q 4 100 199);
    [reflexivity | reflexivity | reflexivity | lia | reflexivity
    | lia | unfold timestep; lia | vm_compute; discriminate].
Defined.

(** C1 (as the spec states it) fails on the code. With four frames and the
    slider at (0, 0) the window has zero frames: the regression routine is
    called on empty input and the run ends in its uncaught [ValueError].
    With the slider at (0, 100) the window has one frame: the routine is
    called on one point and the page displays the NaN it returns as the
    self-diffusivity. Neither run reports a narrow window. *)
Lemma narrow_window_counterexample :
  Z.quot 0 timestep - Z.quot 0 timestep <= 1 /\
  fst (script (example_world ["traj.xyz"] ["topo.mol2"] ["box.pbc"] [MSD] []
                 (Some (0, 0)) [0; 600; 1200; 1800]%Q) ∅)
    = Raise (ValueError "Inputs must not be empty.") /\
  In (EvLinregress [] [])
    (log (snd (script (example_world ["traj.xyz"] ["topo.mol2"] ["box.pbc"]
                         [MSD] [] (Some (0, 0)) [0; 600; 1200; 1800]%Q) ∅))) /\
  Z.quot 100 timestep - Z.quot 0 timestep <= 1 /\
  fst (script (example_world ["traj.xyz"] ["topo.mol2"] ["box.pbc"] [MSD] []
                 (Some (0, 100)) [0; 600; 1200; 1800]%Q) ∅) = Ok tt /\
  In (EvLinregress [0%Q] [0%Q])
    (log (snd (script (example_world ["traj.xyz"] ["topo.mol2"] ["box.pbc"]
                         [MSD] [] (Some (0, 100)) [0; 600; 1200; 1800]%Q) ∅))) /\
  In (EvWrite [Text "Self-diffusivity coefficient: "; Sci3E NaN; Text " m²/s"])
    (log (snd (script (example_world ["traj.xyz"] ["topo.mol2"] ["box.pbc"]
                         [MSD] [] (Some (0, 100)) [0; 600; 1200; 1800]%Q) ∅))).
Proof.
  split; [vm_compute; discriminate|].
  split; [vm_compute; reflexivity|].
  split; [vm_compute; tauto|].
  split; [vm_compute; discriminate|].
  split; [vm_compute; reflexivity|].
  split; vm_compute; tauto.
Qed.

(** ** Least squares over exact rationals *)

Lemma Qlen_cons a l : (Qlen (a :: l) == Qlen l + 1)%Q.
Proof.
  unfold Qlen. simpl length. rewrite Nat2Z.inj_succ, <- Z.add_1_r.
  by rewrite inject_Z_plus.
Qed.

Lemma Qlen_pos l : l <> [] -> (0 < Qlen l)%Q.
Proof.
  intros Hl. unfold Qlen. change 0%Q with (inject_Z 0).
  rewrite <- Zlt_Qlt. destruct l; [done | simpl; lia].
Qed.

Lemma Qsum_affine (s b : Q) (xs ys : list Q) :
  Forall2 (fun x y => y == s * x + b)%Q xs ys ->
  (Qsum ys == s * Qsum xs + b * Qlen xs)%Q.
Proof.
  induction 1 as [|x y xs ys Hxy _ IH].
  - unfold Qlen; simpl. ring.
  - rewrite Qlen_cons. simpl. rewrite IH, Hxy. ring.
Qed.

Lemma Qmean_affine (s b : Q) (xs ys : list Q) :
  xs <> [] ->
  Forall2 (fun x y => y == s * x + b)%Q xs ys ->
  (Qmean ys == s * Qmean xs + b)%Q.
Proof.
  intros Hne HF. unfold Qmean. fold (Qlen ys) (Qlen xs).
  assert (Hlen : Qlen ys = Qlen xs).
  { unfold Qlen. by rewrite (Forall2_length _ _ _ HF). }
  rewrite Hlen, (Qsum_affine s b xs ys HF).
  pose proof (Qlen_pos xs Hne). field. lra.
Qed.

Lemma cross_affine (s b xm ym : Q) (xs ys : list Q) :
  (ym == s * xm + b)%Q ->
  Forall2 (fun x y => y == s * x + b)%Q xs ys ->
  (Qsum (zip_with (fun a c => (a - xm) * (c - ym)) xs ys) == s * sqdev xm xs)%Q.
Proof.
  intros Hm. unfold sqdev. induction 1 as [|x y xs ys Hxy _ IH].
  - simpl. ring.
  - simpl. rewrite IH, Hxy, Hm. ring.
Qed.

Lemma Qsquare_nonneg (a : Q) : (0 <= a * a)%Q.
Proof.
  destruct (Qlt_le_dec a 0).
  - assert (E : (a * a == (- a) * (- a))%Q) by ring.
    rewrite E. apply Qmult_le_0_compat; lra.
  - apply Qmult_le_0_compat; lra.
Qed.

Lemma sqdev_nonneg c l : (0 <= sqdev c l)%Q.
Proof.
  unfold sqdev. induction l as [|a l IH]; simpl; [lra|].
  pose proof (Qsquare_nonneg (a - c)). lra.
Qed.

Lemma sqdev_pos c l a :
  In a l -> ~ (a == c)%Q -> (0 < sqdev c l)%Q.
Proof.
  unfold sqdev. induction l as [|a' l IH]; simpl; [tauto|].
  intros [->|Hin] Hne.
  - pose proof (sqdev_nonneg c l) as Hn. unfold sqdev in Hn.
    assert (0 < (a - c) * (a - c))%Q; [|lra].
    destruct (Qlt_le_dec a c) as [Hlt|Hge].
    + assert (E : ((a - c) * (a - c) == (c - a) * (c - a))%Q) by ring.
      rewrite E. apply Qmult_lt_0_compat; lra.
    + assert (c < a)%Q.
      { apply Qle_lteq in Hge as [?|E]; [done|]. symmetry in E. tauto. }
      apply Qmult_lt_0_compat; lra.
  - specialize (IH Hin Hne).
    pose proof (Qsquare_nonneg (a' - c)). lra.
Qed.

(** For an exactly linear series the least-squares slope is the slope of
    the line, whenever two abscissae differ. *)
Lemma ols_slope_affine (s b : Q) (xs ys : list Q) (x0 x1 : Q) :
  In x0 xs -> In x1 xs -> ~ (x0 == x1)%Q ->
  Forall2 (fun x y => y == s * x + b)%Q xs ys ->
  (0 < sqdev (Qmean xs) xs)%Q /\ (ols_slope xs ys == s)%Q.
Proof.
  intros H0 H1 Hne HF.
  assert (Hxs : xs <> []) by (intros ->; inversion H0).
  assert (Hpos : (0 < sqdev (Qmean xs) xs)%Q).
  { destruct (Qeq_dec x0 (Qmean xs)) as [E|E].
    - apply (sqdev_pos _ _ x1 H1). intros E'. apply Hne. by rewrite E, E'.
    - by apply (sqdev_pos _ _ x0 H0). }
  split; [done|].
  unfold ols_slope, Qmean at 1 4.
  rewrite (cross_affine s b (Qmean xs) (Qmean ys) xs ys
             (Qmean_affine s b xs ys Hxs HF) HF).
  rewrite length_zip_with_l_eq by (by apply Forall2_length in HF).
  rewrite length_map. fold (Qlen xs) (sqdev (Qmean xs) xs).
  pose proof (Qlen_pos xs Hxs). field. split; lra.
Qed.

Lemma scipy_linregress_slope (xs ys : list Q) (x0 x1 : Q) :
  length xs = length ys ->
  xs !! 0%nat = Some x0 -> xs !! 1%nat = Some x1 -> ~ (x0 == x1)%Q ->
  exists lm, scipy_linregress xs ys = Ok lm /\
             slope lm = Fin (ols_slope xs ys).
Proof.
  intros Hlen H0 H1 Hne.
  assert (Hpos : (0 < sqdev (Qmean xs) xs)%Q).
  { destruct (Qeq_dec x0 (Qmean xs)) as [E|E].
    - apply (sqdev_pos _ _ x1).
      + apply list_elem_of_In, list_elem_of_lookup; eauto.
      + intros E'. apply Hne. by rewrite E, E'.
    - apply (sqdev_pos _ _ x0); [|done].
      apply list_elem_of_In, list_elem_of_lookup; eauto. }
  assert (Hm : ~ (Qmean (map (fun a => (a - Qmean xs) * (a - Qmean xs)) xs)
                  == 0)%Q).
  { assert (0 < Qlen xs)%Q by (apply Qlen_pos; by intros ->).
    assert (Hp : (0 < sqdev (Qmean xs) xs / Qlen xs)%Q)
      by (apply Qlt_shift_div_l; lra).
    intros E. unfold sqdev, Qlen in Hp. unfold Qmean at 1 in E.
    rewrite length_map in E. rewrite E in Hp. by apply Qlt_irrefl in Hp. }
  destruct xs as [|a [|a' xs']]; [done | done |].
  destruct ys as [|c ys']; [done|].
  simpl in H0, H1. injection H0 as ->. injection H1 as ->.
  unfold scipy_linregress. rewrite Hlen, Nat.eqb_refl.
  cbn [negb length forallb].
  replace (Qeq_bool x1 x0) with false.
  2:{ symmetry. destruct (Qeq_bool x1 x0) eqn:E; [|done].
      apply Qeq_bool_eq in E. exfalso. apply Hne. by symmetry. }
  rewrite andb_false_r, andb_false_r.
  eexists. split; [reflexivity|].
  cbn [slope num_div]. unfold ols_slope.
  destruct (Qeq_bool _ 0) eqn:E; [|reflexivity].
  apply Qeq_bool_eq in E. by destruct Hm.
Qed.

(** ** Self-diffusivity *)

(** C2. With the least-squares routine as the regression and a window of
    at least two frames, the page computes [D = slope * 1 / (2 * 3)], that
    is slope / 6, from the least-squares slope of the MSD sub-series over
    the window (3 being [dim_fac] of the 'xyz' estimator the page builds),
    and writes [D * 10^-5] in the [.3E] format. For a series lying exactly
    on a line of slope [s] against the lag-time axis, that slope is [s] and
    [D] is [s / 6]. Floats are taken as exact rationals. *)
Theorem diffusivity_from_slope (w : World) (v : Ran) (p : Page)
    (u : Universe) (msd : list Q) (n : nat) (st et : Z) :
  (forall xs ys, linregress w xs ys = scipy_linregress xs ys) ->
  analysis v = build MSD u ->
  results v = MsdResults msd n ->
  length msd = n ->
  slider w "Select start and end time (ps):" 0 ((Z.of_nat n - 1) * timestep)
    (0, (Z.of_nat n - 1) * timestep) = Ok (st, et) ->
  0 <= st <= et ->
  et <= (Z.of_nat n - 1) * timestep ->
  2 <= Z.quot et timestep - Z.quot st timestep ->
  let xs := QZ (py_slice (lagtimes n) (Z.quot st timestep) (Z.quot et timestep)) in
  let ys := py_slice msd (Z.quot st timestep) (Z.quot et timestep) in
  let D := (ols_slope xs ys * 1 / (2 * inject_Z 3))%Q in
  (D == ols_slope xs ys / (2 * 3))%Q /\
  (exists fig,
      present_msd w v p =
        (Ok tt,
         logged p
           [EvWrite [Text "Calculating MSD with a timestep of ";
                     IntF timestep; Text " fs"];
            EvSlider "Select start and end time (ps):" 0
              ((Z.of_nat n - 1) * timestep) (0, (Z.of_nat n - 1) * timestep);
            EvLinregress xs ys;
            EvWrite [Text "Self-diffusivity coefficient: ";
                     Sci3E (Fin (D * (1 / 100000))); Text " m²/s"];
            EvPlotlyChart fig])) /\
  forall s b,
    (forall i y, msd !! i = Some y ->
       (y == s * inject_Z (Z.of_nat i * timestep) + b)%Q) ->
    (ols_slope xs ys == s)%Q /\ (D == s / 6)%Q.
Proof.
  intros Hlin Han Hres Hlen Hsl Hst Het Hwide xs ys D.
  destruct (window_slices msd n st et Hlen Hst Het)
    as (Hqs & Hqe & Hidx & Hlx & Hly & Hk).
  fold xs ys in Hlx, Hly, Hk.
  rewrite Hqs, Hqe in Hwide.
  assert (Hn : (1 <= n)%nat) by lia.
  destruct (window_lookups msd n st et Hlen Hst Het)
    as (y_lo & y_hi & Hylo & Hyhi).
  destruct (Hk 0%nat) as [Hx0 _]; [lia|].
  destruct (Hk 1%nat) as [Hx1 _]; [lia|].
  assert (Hne : ~ (inject_Z ((st / 100 + Z.of_nat 0) * 100) ==
                   inject_Z ((st / 100 + Z.of_nat 1) * 100))%Q).
  { rewrite inject_Z_injective. lia. }
  destruct (scipy_linregress_slope xs ys _ _ ltac:(lia) Hx0 Hx1 Hne)
    as (lm & Hlm & Hslope).
  split; [unfold D; simpl; field|]. split.
  - pose proof (present_msd_run w v p msd n st et y_lo y_hi Hres Hn Hsl
                  Hylo Hyhi) as Hrun.
    cbv zeta in Hrun. fold xs ys in Hrun.
    rewrite Hlin, Hlm, Han in Hrun. cbn [build dim_fac] in Hrun.
    destruct decide as [_|]; [|done].
    destruct Hrun as [fig Hrun]. exists fig. rewrite Hrun, Hslope.
    reflexivity.
  - intros s b Hline.
    assert (HF : Forall2 (fun x y => y == s * x + b)%Q xs ys).
    { apply Forall2_same_length_lookup_2; [lia|].
      intros i x y Hx Hy.
      assert (i < Z.to_nat (et / 100 - st / 100))%nat as Hi
        by (apply lookup_lt_Some in Hx; lia).
      destruct (Hk i Hi) as [Hx' Hy'].
      rewrite Hx' in Hx. injection Hx as <-.
      rewrite Hy' in Hy. rewrite (Hline _ _ Hy).
      replace (Z.of_nat (Z.to_nat (st / 100) + i) * timestep)
        with ((st / 100 + Z.of_nat i) * 100) by (unfold timestep; lia).
      reflexivity. }
    destruct (ols_slope_affine s b xs ys _ _
                (proj1 (list_elem_of_In _ _)
                   (proj2 (list_elem_of_lookup _ _) (ex_intro _ _ Hx0)))
                (proj1 (list_elem_of_In _ _)
                   (proj2 (list_elem_of_lookup _ _) (ex_intro _ _ Hx1)))
                Hne HF) as [_ Hs].
    split; [done|]. unfold D. rewrite Hs. simpl. field.
Qed.

Lemma diffusivity_from_slope_witness :
  let w := example_world ["traj.xyz"] ["topo.mol2"] ["box.pbc"] [MSD] []
             (Some (0, 300)) [0; 600; 1200; 1800]%Q in
  let u := {| topology := None; coordinates := None; format := "XYZ";
              topology_format := "MOL2"; dimensions := None;
              transformations := [] |} in
  let v := {| analysis := build MSD u;
              results := MsdResults [0; 600; 1200; 1800]%Q 4 |} in
  let xs := QZ (py_slice (lagtimes 4) (Z.quot 0 timestep) (Z.quot 300 timestep)) in
  let ys := py_slice [0; 600; 1200; 1800]%Q (Z.quot 0 timestep)
              (Z.quot 300 timestep) in
  let D := (ols_slope xs ys * 1 / (2 * inject_Z 3))%Q in
  (D == ols_slope xs ys / (2 * 3))%Q /\
  (exists fig,
      present_msd w v blank =
        (Ok tt,
         logged blank
           [EvWrite [Text "Calculating MSD with a timestep of ";
                     IntF timestep; Text " fs"];
            EvSlider "Select start and end time (ps):" 0
              ((Z.of_nat 4 - 1) * timestep) (0, (Z.of_nat 4 - 1) * timestep);
            EvLinregress xs ys;
            EvWrite [Text "Self-diffusivity coefficient: ";
                     Sci3E (Fin (D * (1 / 100000))); Text " m²/s"];
            EvPlotlyChart fig])) /\
  forall s b,
    (forall i y, [0; 600; 1200; 1800]%Q !! i = Some y ->
       (y == s * inject_Z (Z.of_nat i * timestep) + b)%Q) ->
    (ols_slope xs ys == s)%Q /\ (D == s / 6)%Q.
Proof.
  intros w u v.
  apply (diffusivity_from_slope w v blank u [0; 600; 1200; 1800]%Q 4 0 300);
    [intros; reflexivity | reflexivity | reflexivity | reflexivity
    | reflexivity | lia | unfold timestep; lia | vm_compute; discriminate].
Defined.

(** ** Linear density *)

Lemma np_add_same (a b : list Q) :
  length a = length b -> np_add a b = Ok (zip_with Qplus a b).
Proof. intros H. unfold np_add. by rewrite H, Nat.eqb_refl. Qed.

(** C7. When the three per-axis density series have one value per bin of
    a common binning, the average the page plots has that many values and
    its value at every bin is [(x + y + z) / 3]; the chart holds exactly
    the four series X, Y, Z and Average in this order, the average drawn
    over the z bin edges, so that with the same number of bin edges on each
    axis all four series have that number of bin edges. *)
Theorem linear_density_average (v : Ran) (p : Page)
    (x y z : AxisDensity) (nbins nedges : nat) :
  results v = LdensResults x y z ->
  length (mass_density x) = nbins ->
  length (mass_density y) = nbins ->
  length (mass_density z) = nbins ->
  length (hist_bin_edges x) = nedges ->
  length (hist_bin_edges y) = nedges ->
  length (hist_bin_edges z) = nedges ->
  exists average,
    present_ldens v p =
      (Ok tt,
       logged p
         [EvPlotlyChart
            {| traces :=
                 [{| sc_x := hist_bin_edges x; sc_y := mass_density x;
                     sc_name := "X"; sc_secondary_y := false |};
                  {| sc_x := hist_bin_edges y; sc_y := mass_density y;
                     sc_name := "Y"; sc_secondary_y := false |};
                  {| sc_x := hist_bin_edges z; sc_y := mass_density z;
                     sc_name := "Z"; sc_secondary_y := false |};
                  {| sc_x := hist_bin_edges z; sc_y := average;
                     sc_name := "Average"; sc_secondary_y := false |}];
               layout := [] |}]) /\
    length average = nbins /\
    (forall i a b c,
        mass_density x !! i = Some a ->
        mass_density y !! i = Some b ->
        mass_density z !! i = Some c ->
        average !! i = Some ((a + b + c) / 3)%Q) /\
    Forall (fun t => length (sc_x t) = nedges)
      [{| sc_x := hist_bin_edges x; sc_y := mass_density x;
          sc_name := "X"; sc_secondary_y := false |};
       {| sc_x := hist_bin_edges y; sc_y := mass_density y;
          sc_name := "Y"; sc_secondary_y := false |};
       {| sc_x := hist_bin_edges z; sc_y := mass_density z;
          sc_name := "Z"; sc_secondary_y := false |};
       {| sc_x := hist_bin_edges z; sc_y := average;
          sc_name := "Average"; sc_secondary_y := false |}].
Proof.
  intros Hres Hx Hy Hz Hex Hey Hez.
  exists (np_div_scalar
            (zip_with Qplus (zip_with Qplus (mass_density x) (mass_density y))
               (mass_density z)) 3).
  split; [|split; [|split]].
  - unfold present_ldens. rewrite Hres. unfold bind, lift.
    rewrite np_add_same by congruence.
    cbv beta iota.
    rewrite np_add_same by (rewrite length_zip_with_l_eq; congruence).
    reflexivity.
  - unfold np_div_scalar.
    assert (length (zip_with Qplus (mass_density x) (mass_density y)) = nbins)
      as Hxy by (rewrite length_zip_with_l_eq; congruence).
    rewrite length_map, length_zip_with_l_eq; congruence.
  - intros i a b c Ha Hb Hc. unfold np_div_scalar.
    rewrite lookup_map, !lookup_zip_with, Ha, Hb, Hc. reflexivity.
  - repeat constructor; simpl; assumption.
Qed.

Lemma linear_density_average_witness :
  let ax := {| mass_density := [1; 2]%Q; hist_bin_edges := [0; 9; 18]%Q |} in
  let ay := {| mass_density := [3; 4]%Q; hist_bin_edges := [0; 9; 18]%Q |} in
  let az := {| mass_density := [5; 9]%Q; hist_bin_edges := [0; 9; 18]%Q |} in
  let v := {| analysis := build LDENS
                {| topology := None; coordinates := None; format := "XYZ";
                   topology_format := "MOL2"; dimensions := None;
                   transformations := [] |};
              results := LdensResults ax ay az |} in
  exists average,
    present_ldens v blank =
      (Ok tt,
       logged blank
         [EvPlotlyChart
            {| traces :=
                 [{| sc_x := hist_bin_edges ax; sc_y := mass_density ax;
                     sc_name := "X"; sc_secondary_y := false |};
                  {| sc_x := hist_bin_edges ay; sc_y := mass_density ay;
                     sc_name := "Y"; sc_secondary_y := false |};
                  {| sc_x := hist_bin_edges az; sc_y := mass_density az;
                     sc_name := "Z"; sc_secondary_y := false |};
                  {| sc_x := hist_bin_edges az; sc_y := average;
                     sc_name := "Average"; sc_secondary_y := false |}];
               layout := [] |}]) /\
    length average = 2%nat /\
    (forall i a b c,
        mass_density ax !! i = Some a ->
        mass_density ay !! i = Some b ->
        mass_density az !! i = Some c ->
        average !! i = Some ((a + b + c) / 3)%Q) /\
    Forall (fun t => length (sc_x t) = 3%nat)
      [{| sc_x := hist_bin_edges ax; sc_y := mass_density ax;
          sc_name := "X"; sc_secondary_y := false |};
       {| sc_x := hist_bin_edges ay; sc_y := mass_density ay;
          sc_name := "Y"; sc_secondary_y := false |};
       {| sc_x := hist_bin_edges az; sc_y := mass_density az;
          sc_name := "Z"; sc_secondary_y := false |};
       {| sc_x := hist_bin_edges az; sc_y := average;
          sc_name := "Average"; sc_secondary_y := false |}].
Proof.
  intros ax ay az v.
  apply (linear_density_average v blank ax ay az 2 3); reflexivity.
Defined.

(** ** The MSD series and its lag-time axis *)

Lemma Forall_zip_with_all {A B C} (f : A -> B -> C) (P : C -> Prop) :
  (forall a b, P (f a b)) -> forall l k, Forall P (zip_with f l k).
Proof.
  intros Hf l. induction l as [|a l IH]; intros [|b k]; simpl;
    constructor; auto.
Qed.

Lemma sqdist_nonneg (a b : vec3) : (0 <= sqdist a b)%Q.
Proof.
  destruct a as [[ax ay] az], b as [[bx b_y] bz]. unfold sqdist.
  pose proof (Qsquare_nonneg (ax - bx)).
  pose proof (Qsquare_nonneg (ay - b_y)).
  pose proof (Qsquare_nonneg (az - bz)). lra.
Qed.

Lemma Qsum_nonneg (l : list Q) : Forall (fun v => 0 <= v)%Q l -> (0 <= Qsum l)%Q.
Proof. induction 1; simpl; lra. Qed.

Lemma Qmean_nonneg (l : list Q) :
  Forall (fun v => 0 <= v)%Q l -> (0 <= Qmean l)%Q.
Proof.
  intros H. unfold Qmean, Qdiv. apply Qmult_le_0_compat.
  - by apply Qsum_nonneg.
  - apply Qinv_le_0_compat. change 0%Q with (inject_Z 0).
    rewrite <- Zle_Qle. lia.
Qed.

Lemma msd_at_nonneg traj lag : (0 <= msd_at traj lag)%Q.
Proof.
  unfold msd_at, displacements. apply Qmean_nonneg, Forall_concat.
  apply Forall_zip_with_all. intros fa fb.
  apply Forall_zip_with_all, sqdist_nonneg.
Qed.

(** C6. The MSD result has one value per trajectory frame, none negative,
    and the lag-time axis the page derives from it has one entry per frame,
    the entry of frame [i] being [i * 100] for [i = 0 .. n_frames - 1]: the
    fixed timestep, read from no trajectory metadata. (The estimator is the
    one modelled above from the spec, over exact rationals; a trajectory
    without atoms has the empty mean 0 at every lag.) *)
Theorem msd_series_and_lagtimes (traj : list (list vec3)) :
  exists msd nframes,
    einstein_msd traj = MsdResults msd nframes /\
    nframes = length traj /\
    length msd = nframes /\
    Forall (fun v => 0 <= v)%Q msd /\
    length (lagtimes nframes) = nframes /\
    timestep = 100 /\
    forall i, (i < nframes)%nat ->
      lagtimes nframes !! i = Some (Z.of_nat i * 100).
Proof.
  eexists _, _. split; [reflexivity|].
  split; [done|]. split; [by rewrite length_map, length_seq|].
  split.
  - apply Forall_forall. intros v Hv. apply list_elem_of_In in Hv.
    apply in_map_iff in Hv as (lag & <- & _).
    apply msd_at_nonneg.
  - split; [apply lagtimes_length|]. split; [done|].
    intros i Hi. by rewrite lagtimes_lookup.
Qed.

(** ** The system builder *)

(** C9. [create_u] is a function of the three selected files only, and
    on a valid selection it builds. (1) Whenever the loader accepts the
    topology and the trajectory, a box file is selected, it can be read and
    its whole content parses as one float [L], the call returns the System
    of the loaded topology and trajectory with the cell
    [L, L, L, 90, 90, 90], after exactly two external calls (the loader,
    then the opening of the box file); a second call on the same selection,
    from any other page state and in any world whose loader and box file
    answer alike, returns the very same System. (2) On any selection, valid
    or not, two such calls have the same outcome, the same exception
    included. (3) The call leaves the session untouched. (4) A System it
    returns can only be of that shape, [L] being the float read from the
    box file. *)
Theorem create_u_deterministic (w1 w2 : World) (sel : Selection)
    (p1 p2 : Page) :
  mda_Universe w1 (topo_selection sel) (xyz_selection sel) =
    mda_Universe w2 (topo_selection sel) (xyz_selection sel) ->
  (forall f, pbc_selection sel = Some f -> read_text w1 f = read_text w2 f) ->
  (forall content, float_of_str w1 content = float_of_str w2 content) ->
  (forall f content L,
      mda_Universe w1 (topo_selection sel) (xyz_selection sel) = Ok tt ->
      pbc_selection sel = Some f ->
      read_text w1 f = Ok content ->
      float_of_str w1 content = Ok L ->
      let u := {| topology := topo_selection sel;
                  coordinates := xyz_selection sel;
                  format := "XYZ"; topology_format := "MOL2";
                  dimensions := Some [L; L; L; 90%Q; 90%Q; 90%Q];
                  transformations := [] |} in
      let calls := [EvUniverse (topo_selection sel) (xyz_selection sel);
                    EvOpen (Some f)] in
      create_u w1 sel p1 = (Ok u, logged p1 calls) /\
      create_u w2 sel p2 = (Ok u, logged p2 calls)) /\
  fst (create_u w1 sel p1) = fst (create_u w2 sel p2) /\
  session (snd (create_u w1 sel p1)) = session p1 /\
  forall u, fst (create_u w1 sel p1) = Ok u ->
    exists f content L,
      pbc_selection sel = Some f /\
      read_text w1 f = Ok content /\
      float_of_str w1 content = Ok L /\
      u = {| topology := topo_selection sel;
             coordinates := xyz_selection sel;
             format := "XYZ"; topology_format := "MOL2";
             dimensions := Some [L; L; L; 90%Q; 90%Q; 90%Q];
             transformations := [] |}.
Proof.
  intros HU Hread Hfloat. split.
  { intros f content L HU1 Hpbc Hrt HL u calls. subst u calls.
    assert (HU2 := HU). rewrite HU1 in HU2.
    assert (Hrt2 := Hread f Hpbc). rewrite Hrt in Hrt2.
    assert (HL2 := Hfloat content). rewrite HL in HL2.
    unfold create_u, open_read. unfold bind, emit, lift, raise, ret, logged.
    cbn [session log]. rewrite HU1, <- HU2, Hpbc. cbn [session log].
    rewrite Hrt, <- Hrt2, HL, <- HL2. unfold set_dimensions.
    cbn [topology coordinates format topology_format transformations].
    by rewrite <- !app_assoc. }
  unfold create_u, open_read. unfold bind, emit, lift, raise, ret.
  cbn [session log]. rewrite <- HU.
  destruct (mda_Universe w1 _ _) as [[]|e]; cbn [fst snd session];
    [|split; [done|]; split; [done|]; intros u [=]].
  destruct (pbc_selection sel) as [f|] eqn:Hpbc; cbn [fst snd session];
    [|split; [done|]; split; [done|]; intros u [=]].
  rewrite <- (Hread f eq_refl).
  destruct (read_text w1 f) as [content|e] eqn:Hrt; cbn [fst snd session];
    [|split; [done|]; split; [done|]; intros u [=]].
  rewrite <- Hfloat.
  destruct (float_of_str w1 content) as [L|e] eqn:HL; cbn [fst snd session];
    [|split; [done|]; split; [done|]; intros u [=]].
  split; [done|]. split; [done|]. intros u [= <-].
  exists f, content, L. repeat split; done.
Qed.

Lemma create_u_deterministic_witness :
  let w1 := example_world ["traj.xyz"] ["topo.mol2"] ["box.pbc"] [MSD] []
              None [0; 600; 1200]%Q in
  let w2 := example_world ["traj.xyz"; "b.xyz"] ["topo.mol2"] ["box.pbc"]
              [RDF; DIEL] [RDF] (Some (0, 100)) [] in
  let sel := {| xyz_selection := Some "traj.xyz";
                topo_selection := Some "topo.mol2";
                pbc_selection := Some "box.pbc" |} in
  let p2 := {| session := ∅; log := [EvCheckbox "Calculate RDFs" true] |} in
  let u := {| topology := Some "topo.mol2"; coordinates := Some "traj.xyz";
              format := "XYZ"; topology_format := "MOL2";
              dimensions := Some [18; 18; 18; 90; 90; 90]%Q;
              transformations := [] |} in
  let calls := [EvUniverse (Some "topo.mol2") (Some "traj.xyz");
                EvOpen (Some "box.pbc")] in
  (create_u w1 sel blank = (Ok u, logged blank calls) /\
   create_u w2 sel p2 = (Ok u, logged p2 calls)) /\
  fst (create_u w1 sel blank) = fst (create_u w2 sel p2) /\
  session (snd (create_u w1 sel blank)) = session blank.
Proof.
  intros w1 w2 sel p2 u calls.
  destruct (create_u_deterministic w1 w2 sel blank p2)
    as (Hvalid & Hsame & Hframe & _);
    [reflexivity | intros; reflexivity | intros; reflexivity |].
  split; [|split; [exact Hsame|exact Hframe]].
  apply (Hvalid "box.pbc" "18.0" 18%Q); reflexivity.
Defined.

(** ** The caching block *)

Lemma calm_eq {A} (c : M A) :
  calm c ->
  Forall passive (log (snd (c blank))) /\
  forall p, c p = (fst (c blank), logged p (log (snd (c blank)))).
Proof.
  intros (r & l & Hl & Hc). rewrite (Hc blank). cbn [fst snd logged log blank].
  rewrite app_nil_l. split; [done|]. intros p. by rewrite Hc.
Qed.

Lemma create_u_eq w sel p :
  create_u w sel p = (system w sel, logged p (system_calls w sel)).
Proof. apply (calm_eq _ (create_u_calm w sel)). Qed.

Lemma system_calls_passive w sel : Forall passive (system_calls w sel).
Proof. apply (calm_eq _ (create_u_calm w sel)). Qed.

Lemma system_calls_head w sel :
  In (EvUniverse (topo_selection sel) (xyz_selection sel)) (system_calls w sel).
Proof.
  unfold system_calls, create_u, open_read. unfold bind, emit, lift, raise, ret.
  cbn [session log blank app].
  destruct (mda_Universe w _ _); [|left; reflexivity].
  cbn [session log app].
  destruct (pbc_selection sel); [|left; reflexivity].
  destruct (read_text w _); [|left; reflexivity].
  destruct (float_of_str w _); left; reflexivity.
Qed.

Lemma passive_not_run l a : Forall passive l -> ~ In (EvRun a) l.
Proof.
  intros H Hin. rewrite List.Forall_forall in H. exact (H _ Hin).
Qed.

Lemma passive_not_button l lb b : Forall passive l -> ~ In (EvButton lb b) l.
Proof.
  intros H Hin. rewrite List.Forall_forall in H. exact (H _ Hin).
Qed.

Lemma key_inj m m' : key m = key m' -> m = m'.
Proof. destruct m, m'; simpl; intros H; first [reflexivity | discriminate H]. Qed.

Lemma recalc_label_inj m m' : recalc_label m = recalc_label m' -> m = m'.
Proof. destruct m, m'; simpl; intros H; first [reflexivity | discriminate H]. Qed.

Lemma check_label_inj m m' : check_label m = check_label m' -> m = m'.
Proof. destruct m, m'; simpl; intros H; first [reflexivity | discriminate H]. Qed.

Lemma metric_of_build m u : metric_of (build m u) = m.
Proof. by destruct m. Qed.

Lemma cached_spec (w : World) (m : metric) (a : Analysis) (p : Page) :
  exists l,
    let out := cached w m a p in
    let b := button w (recalc_label m) in
    log (snd out) = log p ++ l /\
    (forall e, In e l -> e = EvRun a \/ e = EvButton (recalc_label m) b) /\
    (forall k, k <> key m -> session (snd out) !! k = session p !! k) /\
    (forall v0, session p !! key m = Some v0 -> b = false ->
       session (snd out) = session p /\ l = [EvButton (recalc_label m) false] /\
       fst out = Ok v0) /\
    (In (EvButton (recalc_label m) b) l ->
     session p !! key m = None \/ b = true ->
       In (EvRun a) l /\
       match run w a with
       | Ok x => session (snd out) !! key m
                 = Some {| analysis := a; results := x |} /\
                 fst out = Ok {| analysis := a; results := x |}
       | Raise e => fst out = Raise e /\ session (snd out) = session p
       end) /\
    (session (snd out) = session p \/
     exists x, run w a = Ok x /\ In (EvRun a) l /\
       session (snd out) !! key m = Some {| analysis := a; results := x |}).
Proof.
  unfold cached, analysis_run, st_sidebar_button, get_session, store.
  unfold bind, emit, lift, ret, raise. cbn [session log fst snd].
  destruct (session p !! key m) as [v0|] eqn:Hs;
    destruct (run w a) as [x|e] eqn:Hr;
    destruct (button w (recalc_label m)) eqn:Hb;
    cbn [session log fst snd];
    rewrite ?lookup_insert_eq, ?Hs, ?Hr; cbn [session log fst snd];
    rewrite ?lookup_insert_eq, ?Hs; cbn [session log fst snd].
  all: rewrite <- ?app_assoc; cbn [app].
  all: eexists; split; [reflexivity|].
  all: split; [intros ev Hev; simpl in Hev; intuition (subst; auto)|].
  all: split; [intros k Hk; by rewrite ?lookup_insert_ne by done|].
  all: split; [intros v1 Hsome Hfalse; try discriminate Hfalse;
               try discriminate Hsome; by injection Hsome as ->|].
  all: split; [intros Hin Hor; simpl in Hin |- *;
               try (destruct Hor as [[=]|[=]]; fail);
               try (split; [tauto|]); try tauto;
               rewrite ?lookup_insert_eq; try done|].
  all: try (left; reflexivity).
  all: right; eexists; split; [reflexivity|]; split; [simpl; tauto|]; done.
Qed.

(** ** One section *)

Ltac in_split :=
  repeat match goal with
         | H : In _ (_ ++ _) |- _ => apply in_app_or in H as [H|H]
         | H : In _ (_ :: _) |- _ => destruct H as [H|H]
         | H : In _ [] |- _ => destruct H
         | H : EvCheckbox _ _ = _ |- _ => discriminate H
         | H : In (EvRun _) ?l, P : Forall passive ?l |- _ =>
             destruct (passive_not_run _ _ P H)
         | H : In (EvButton _ _) ?l, P : Forall passive ?l |- _ =>
             destruct (passive_not_button _ _ _ P H)
         end.

Lemma section_effect (w : World) (m : metric) (sel : Selection) (p : Page) :
  exists l,
    let out := metric_section w m sel p in
    let b := button w (recalc_label m) in
    log (snd out) = log p ++ l /\
    (forall a, In (EvRun a) l ->
       exists u, system w sel = Ok u /\ a = build m u) /\
    (forall lb b', In (EvButton lb b') l -> lb = recalc_label m /\ b' = b) /\
    (forall k, k <> key m -> session (snd out) !! k = session p !! k) /\
    (forall v, session p !! key m = Some v -> b = false ->
       session (snd out) = session p /\ forall a, ~ In (EvRun a) l) /\
    (In (EvButton (recalc_label m) b) l ->
     session p !! key m = None \/ b = true ->
       exists u, system w sel = Ok u /\ In (EvRun (build m u)) l /\
         match run w (build m u) with
         | Ok x => session (snd out) !! key m
                   = Some {| analysis := build m u; results := x |}
         | Raise e => fst out = Raise e /\ session (snd out) = session p
         end) /\
    (session (snd out) = session p \/
     exists u x, system w sel = Ok u /\ run w (build m u) = Ok x /\
       In (EvRun (build m u)) l /\
       session (snd out) !! key m
       = Some {| analysis := build m u; results := x |}).
Proof.
  unfold metric_section, st_sidebar_checkbox, bind, emit, ret.
  cbn [session log fst snd].
  destruct (checkbox w (check_label m)) eqn:Hc.
  2:{ exists [EvCheckbox (check_label m) false]. cbn [fst snd session log].
      split; [done|]. split; [intros a Ha; in_split|].
      split; [intros lb b' Ha; in_split|]. split; [done|].
      split; [intros v _ _; split; [done|]; intros a Ha; in_split|].
      split; [intros Ha; in_split|]. by left. }
  rewrite create_u_eq. pose proof (system_calls_passive w sel) as Hpass.
  destruct (system w sel) as [u|e] eqn:Hsys.
  2:{ exists (EvCheckbox (check_label m) true :: system_calls w sel).
      cbn [fst snd session log logged].
      split; [by rewrite <- app_assoc|]. split; [intros a Ha; in_split|].
      split; [intros lb b' Ha; in_split|]. split; [done|].
      split; [intros v _ _; split; [done|]; intros a Ha; in_split|].
      split; [intros Ha; in_split|]. by left. }
  set (p1 := logged _ _).
  destruct (cached_spec w m (build m u) p1)
    as (lc & Hlog & Hev & Hframe & Hreuse & Hfresh & Hchange).
  cbv zeta in Hlog, Hev, Hframe, Hreuse, Hfresh, Hchange.
  assert (Hrun : forall a, In (EvRun a) lc -> a = build m u).
  { intros a Ha. destruct (Hev _ Ha) as [[= ->]|[=]]. done. }
  assert (Hbut : forall lb b', In (EvButton lb b') lc ->
            lb = recalc_label m /\ b' = button w (recalc_label m)).
  { intros lb b' Ha. destruct (Hev _ Ha) as [[=]|[= -> ->]]. done. }
  destruct (cached w m (build m u) p1) as [[v|e] p2] eqn:Hcached;
    cbn [fst snd] in *.
  - destruct (calm_eq _ (present_calm w m v)) as [Hpp Hpres].
    rewrite Hpres. cbn [fst snd logged session log].
    exists ([EvCheckbox (check_label m) true] ++ system_calls w sel ++ lc ++
            log (snd (present w m v blank))).
    split; [rewrite Hlog; subst p1; cbn [logged log]; by rewrite <- !app_assoc|].
    split; [intros a Ha; in_split; exists u; split; [done|]; by apply Hrun|].
    split; [intros lb b' Ha; in_split; by apply Hbut|].
    split; [exact Hframe|].
    split.
    { intros v0 Hv0 Hb. destruct (Hreuse v0 Hv0 Hb) as (Hs & -> & _).
      split; [done|]. intros a Ha. in_split. discriminate Ha. }
    split.
    { intros Ha Hor. in_split. destruct (Hfresh Ha Hor) as [Hin Hm].
      exists u. split; [done|].
      split; [rewrite !in_app_iff; tauto|].
      destruct (run w (build m u)); [tauto|]. by destruct Hm as [[=] _]. }
    destruct Hchange as [Hsame|(x & Hx & Hin & Hst)]; [by left|].
    right. exists u, x. rewrite !in_app_iff. tauto.
  - exists ([EvCheckbox (check_label m) true] ++ system_calls w sel ++ lc).
    split; [rewrite Hlog; subst p1; cbn [logged log]; by rewrite <- !app_assoc|].
    split; [intros a Ha; in_split; exists u; split; [done|]; by apply Hrun|].
    split; [intros lb b' Ha; in_split; by apply Hbut|].
    split; [exact Hframe|].
    split.
    { intros v0 Hv0 Hb. by destruct (Hreuse v0 Hv0 Hb) as (_ & _ & [=]). }
    split.
    { intros Ha Hor. in_split. destruct (Hfresh Ha Hor) as [Hin Hm].
      exists u. split; [done|].
      split; [rewrite !in_app_iff; tauto|].
      destruct (run w (build m u)); [by destruct Hm as [_ [=]]|].
      destruct Hm as [[= ->] Hm]. split; [done|exact Hm]. }
    destruct Hchange as [Hsame|(x & Hx & Hin & Hst)]; [by left|].
    right. exists u, x. rewrite !in_app_iff. tauto.
Qed.

(** ** What a computation can emit *)

Lemma emits_ret {A} G (a : A) : emits G (ret a).
Proof. intros p. exists []. by rewrite app_nil_r. Qed.

Lemma emits_raise {A} G (e : exn) : emits G (@raise A e).
Proof. intros p. exists []. by rewrite app_nil_r. Qed.

Lemma emits_lift {A} G (r : res A) : emits G (lift r).
Proof. intros p. exists []. by rewrite app_nil_r. Qed.

Lemma emits_get G : emits G get_session.
Proof. intros p. exists []. by rewrite app_nil_r. Qed.

Lemma emits_store G k v : emits G (store k v).
Proof. intros p. exists []. by rewrite app_nil_r. Qed.

Lemma emits_emit (G : event -> Prop) (e : event) : G e -> emits G (emit e).
Proof. intros He p. exists [e]. split; [done|]. by repeat constructor. Qed.

Lemma emits_bind {A B} G (c : M A) (k : A -> M B) :
  emits G c -> (forall a, emits G (k a)) -> emits G (bind c k).
Proof.
  intros Hc Hk p. unfold bind. destruct (Hc p) as (l & Hl & HG).
  destruct (c p) as [[a|e] p1]; cbn [snd] in *.
  - destruct (Hk a p1) as (l' & Hl' & HG').
    exists (l ++ l'). split; [by rewrite Hl', Hl, app_assoc|].
    by apply Forall_app.
  - by exists l.
Qed.

Ltac emits_step :=
  first
    [ apply emits_ret | apply emits_raise | apply emits_lift
    | apply emits_get | apply emits_store
    | apply emits_emit; exact I
    | apply emits_bind; [| intros ?]
    | match goal with
      | |- emits _ (match ?x with _ => _ end) => destruct x
      | |- emits _ (let '(_, _) := ?x in _) => destruct x
      | |- emits _ (if ?x then _ else _) => destruct x
      end ].

Ltac emits_tac := repeat emits_step.

Lemma present_emits (w : World) (m : metric) (v : Ran) :
  emits display_event (present w m v).
Proof.
  destruct m; unfold present, present_rdf, present_ldens, present_msd,
    present_diel, st_write, st_slider, st_plotly_chart; emits_tac.
Qed.

Lemma create_u_emits (w : World) (sel : Selection) :
  emits build_event (create_u w sel).
Proof. unfold create_u, open_read. emits_tac. Qed.

Lemma present_events_display (w : World) (m : metric) (v : Ran) :
  Forall display_event (log (snd (present w m v blank))).
Proof.
  destruct (present_emits w m v blank) as (l & Hl & HG).
  rewrite Hl. exact HG.
Qed.

Lemma system_calls_build (w : World) (sel : Selection) :
  Forall build_event (system_calls w sel).
Proof.
  destruct (create_u_emits w sel blank) as (l & Hl & HG).
  unfold system_calls. rewrite Hl. exact HG.
Qed.

(** ** A section, outcome by outcome *)

Lemma section_unfold (w : World) (m : metric) (sel : Selection) (p : Page) :
  metric_section w m sel p =
  if checkbox w (check_label m) then
    let p1 := logged p (EvCheckbox (check_label m) true :: system_calls w sel) in
    match system w sel with
    | Raise e => (Raise e, p1)
    | Ok u =>
        match cached w m (build m u) p1 with
        | (Raise e, p2) => (Raise e, p2)
        | (Ok v, p2) =>
            (fst (present w m v blank),
             logged p2 (log (snd (present w m v blank))))
        end
    end
  else (Ok tt, logged p [EvCheckbox (check_label m) false]).
Proof.
  unfold metric_section, st_sidebar_checkbox, bind, emit, ret.
  cbn [session log]. destruct (checkbox w (check_label m)); [|done].
  rewrite create_u_eq.
  assert (E : logged {| session := session p;
                        log := log p ++ [EvCheckbox (check_label m) true] |}
                (system_calls w sel)
              = logged p (EvCheckbox (check_label m) true
                          :: system_calls w sel)).
  { unfold logged. cbn [session log]. by rewrite <- app_assoc. }
  rewrite E. cbv zeta.
  destruct (system w sel) as [u|e]; [|done].
  destruct (cached w m (build m u) _) as [[v|e] p2]; [|done].
  apply (calm_eq _ (present_calm w m v)).
Qed.

Lemma cached_outcome (w : World) (m : metric) (a : Analysis) (p : Page) :
  exists lc,
    let out := cached w m a p in
    log (snd out) = log p ++ lc /\
    Forall (fun e => e = EvRun a \/
                     e = EvButton (recalc_label m) (button w (recalc_label m)))
      lc /\
    (forall k, k <> key m -> session (snd out) !! k = session p !! k) /\
    match fst out with
    | Ok v => session (snd out) !! key m = Some v /\
              In (EvButton (recalc_label m) (button w (recalc_label m))) lc
    | Raise e => run w a = Raise e /\ session (snd out) = session p /\
                 In (EvRun a) lc
    end /\
    (forall v0, session p !! key m = Some v0 ->
                button w (recalc_label m) = false ->
                out = (Ok v0, logged p [EvButton (recalc_label m) false])).
Proof.
  unfold cached, analysis_run, st_sidebar_button, get_session, store.
  unfold bind, emit, lift, ret, raise, logged. cbn [session log fst snd].
  destruct (session p !! key m) as [v0|] eqn:Hs;
    destruct (run w a) as [x|e] eqn:Hr;
    destruct (button w (recalc_label m)) eqn:Hb;
    cbn [session log fst snd];
    rewrite ?lookup_insert_eq, ?Hs, ?Hr; cbn [session log fst snd];
    rewrite ?lookup_insert_eq, ?Hs; cbn [session log fst snd].
  all: rewrite <- ?app_assoc; cbn [app].
  all: eexists; split; [reflexivity|].
  all: split;
    [repeat (constructor;
             [first [left; reflexivity | right; reflexivity]|]);
     constructor|].
  all: split; [intros k Hk; by rewrite ?lookup_insert_ne by done|].
  all: split; [simpl; intuition auto|].
  all: intros v1 Hv1 Hf; try discriminate Hf; try discriminate Hv1.
  all: injection Hv1 as ->; destruct p; reflexivity.
Qed.

(** The caching block when it has to compute: no value stored, or the
    button pressed, and the analysis returns. *)
Lemma cached_fresh (w : World) (m : metric) (a : Analysis) (p : Page)
    (x : Results) :
  run w a = Ok x ->
  session p !! key m = None \/ button w (recalc_label m) = true ->
  cached w m a p =
    (Ok {| analysis := a; results := x |},
     {| session := <[key m := {| analysis := a; results := x |}]> (session p);
        log := log p ++
               match session p !! key m with
               | None => [EvRun a]
               | Some _ => []
               end ++
               EvButton (recalc_label m) (button w (recalc_label m)) ::
               (if button w (recalc_label m) then [EvRun a] else []) |}).
Proof.
  intros Hr Hor.
  unfold cached, analysis_run, st_sidebar_button, get_session, store.
  unfold bind, emit, lift, ret, raise. cbn [session log fst snd].
  destruct (session p !! key m) as [v0|] eqn:Hs;
    destruct (button w (recalc_label m)) eqn:Hb;
    try (by destruct Hor as [[=]|[=]]);
    cbn [session log fst snd];
    rewrite ?lookup_insert_eq, ?Hs, ?Hr; cbn [session log fst snd];
    rewrite ?lookup_insert_eq, ?Hs, ?Hr; cbn [session log fst snd];
    rewrite ?lookup_insert_eq, ?insert_insert_eq, <- ?app_assoc;
    reflexivity.
Qed.

Lemma section_fresh (w : World) (m : metric) (sel : Selection) (p : Page)
    (u : Universe) (x : Results) :
  checkbox w (check_label m) = true ->
  system w sel = Ok u ->
  run w (build m u) = Ok x ->
  session p !! key m = None \/ button w (recalc_label m) = true ->
  let v := {| analysis := build m u; results := x |} in
  let b := button w (recalc_label m) in
  let out := metric_section w m sel p in
  session (snd out) = <[key m := v]> (session p) /\
  fst out = fst (present w m v blank) /\
  log (snd out) =
    log p ++ EvCheckbox (check_label m) true :: system_calls w sel ++
    match session p !! key m with
    | None => [EvRun (build m u)]
    | Some _ => []
    end ++
    EvButton (recalc_label m) b :: (if b then [EvRun (build m u)] else []) ++
    log (snd (present w m v blank)).
Proof.
  intros Hc Hsys Hr Hor v b out. subst out.
  rewrite section_unfold, Hc, Hsys. cbv zeta.
  rewrite (cached_fresh w m (build m u) _ x Hr) by exact Hor.
  cbn [fst snd logged session log]. split; [done|]. split; [done|].
  rewrite <- !app_assoc. cbn [app]. by rewrite <- ?app_assoc.
Qed.

(** ** The checkboxes a stretch of the run renders *)

Lemma rendered_app l1 l2 : rendered (l1 ++ l2) = rendered l1 ++ rendered l2.
Proof. unfold rendered. apply flat_map_app. Qed.

Lemma rendered_in (l : list event) (lb : string) (b : bool) :
  In (EvCheckbox lb b) l -> In lb (rendered l).
Proof.
  intros H. unfold rendered. apply in_flat_map.
  exists (EvCheckbox lb b). split; [done|]. by left.
Qed.

Lemma rendered_none (G : event -> Prop) (l : list event) :
  (forall e, G e -> rendered [e] = []) -> Forall G l -> rendered l = [].
Proof.
  intros HG. induction 1 as [|e l He _ IH]; [done|].
  change (e :: l) with ([e] ++ l). by rewrite rendered_app, (HG e He), IH.
Qed.

Lemma section_rendered (w : World) (m : metric) (sel : Selection) (p : Page) :
  exists l,
    let out := metric_section w m sel p in
    log (snd out) = log p ++ l /\
    rendered l = [check_label m] /\
    (forall a, In (EvRun a) l -> metric_of a = m) /\
    (forall e, fst out = Raise e -> checkbox w (check_label m) = true).
Proof.
  rewrite section_unfold.
  destruct (checkbox w (check_label m)) eqn:Hc.
  2:{ exists [EvCheckbox (check_label m) false]. cbn [fst snd logged log].
      split; [done|]. split; [done|].
      split; [by intros a [[=]|[]]|]. by intros e [=]. }
  cbv zeta.
  assert (Hb : rendered (system_calls w sel) = []).
  { apply (rendered_none build_event); [by intros []|].
    apply system_calls_build. }
  pose proof (system_calls_passive w sel) as Hpass.
  destruct (system w sel) as [u|e].
  2:{ exists (EvCheckbox (check_label m) true :: system_calls w sel).
      cbn [fst snd logged log]. split; [done|].
      split; [change (rendered ([EvCheckbox (check_label m) true] ++
                                system_calls w sel) = [check_label m]);
              by rewrite rendered_app, Hb|].
      split; [|done]. intros a [[=]|Ha].
      by destruct (passive_not_run _ _ Hpass Ha). }
  destruct (cached_outcome w m (build m u)
              (logged p (EvCheckbox (check_label m) true
                         :: system_calls w sel)))
    as (lc & Hlog & Hev & _).
  cbv zeta in Hlog, Hev.
  assert (Hlc : rendered lc = []).
  { refine (rendered_none _ _ _ Hev). by intros e [-> | ->]. }
  assert (Hrun : forall a, In (EvRun a) lc -> metric_of a = m).
  { intros a Ha. rewrite List.Forall_forall in Hev.
    destruct (Hev _ Ha) as [[= ->]|[=]]. apply metric_of_build. }
  destruct (cached w m (build m u) _) as [[v|e] p2]; cbn [fst snd] in *.
  - pose proof (present_events_display w m v) as Hd.
    assert (Hp : rendered (log (snd (present w m v blank))) = []).
    { apply (rendered_none display_event); [by intros []|done]. }
    exists ([EvCheckbox (check_label m) true] ++ system_calls w sel ++ lc ++
            log (snd (present w m v blank))).
    cbn [logged log]. rewrite Hlog. cbn [logged log].
    split; [by rewrite <- !app_assoc|].
    split; [by rewrite !rendered_app, Hb, Hlc, Hp|].
    split; [|done]. intros a Ha.
    apply in_app_or in Ha as [[[=]|[]]|Ha].
    apply in_app_or in Ha as [Ha|Ha];
      [by destruct (passive_not_run _ _ Hpass Ha)|].
    apply in_app_or in Ha as [Ha|Ha]; [by apply Hrun|].
    rewrite List.Forall_forall in Hd. by destruct (Hd _ Ha).
  - exists ([EvCheckbox (check_label m) true] ++ system_calls w sel ++ lc).
    rewrite Hlog. cbn [logged log].
    split; [by rewrite <- !app_assoc|].
    split; [by rewrite !rendered_app, Hb, Hlc|].
    split; [|done]. intros a Ha.
    apply in_app_or in Ha as [[[=]|[]]|Ha].
    apply in_app_or in Ha as [Ha|Ha];
      [by destruct (passive_not_run _ _ Hpass Ha)|by apply Hrun].
Qed.

(** ** The sections in sequence *)

Lemma page_sections (w : World) (p : Page) :
  page w p =
  run_sections w [RDF; LDENS; MSD; DIEL] (selection w)
    (logged p
       [EvSetPageConfig "wide";
        EvSelectbox "Select trajectory file" (path_sort w (glob w "**/*.xyz"))
          (xyz_selection (selection w));
        EvSelectbox "Select topology file" (path_sort w (glob w "**/*.mol2"))
          (topo_selection (selection w));
        EvSelectbox "Select pbc file" (path_sort w (glob w "**/*.pbc"))
          (pbc_selection (selection w))]).
Proof.
  unfold page, select_file, st_sidebar_selectbox, run_sections.
  unfold bind, emit, ret, logged. cbn [session log].
  rewrite <- !app_assoc. cbn [app]. fold (selection w).
  destruct (metric_section w RDF _ _) as [[[]|?] ?]; [|done].
  destruct (metric_section w LDENS _ _) as [[[]|?] ?]; [|done].
  destruct (metric_section w MSD _ _) as [[[]|?] ?]; [|done].
  destruct (metric_section w DIEL _ _) as [[[]|?] ?]; done.
Qed.

Lemma cache_untouched_effect w sel m p out l :
  cache_untouched w sel m p out l -> cache_effect w sel m p out l.
Proof.
  intros (Hlog & Hruns & Hs & Hnr & Hnb).
  split; [done|]. split; [done|].
  split; [intros v Hv _; split; [by rewrite Hs|done]|].
  split; [intros b Hb; by destruct (Hnb b)|]. by left.
Qed.

Lemma section_other (w : World) (m m' : metric) (sel : Selection) (p : Page) :
  m <> m' ->
  exists l, cache_untouched w sel m p (metric_section w m' sel p) l.
Proof.
  intros Hne.
  destruct (section_effect w m' sel p)
    as (l & Hlog & Hruns & Hbut & Hframe & _).
  cbv zeta in Hlog, Hruns, Hbut, Hframe.
  exists l. split; [done|].
  split.
  { intros a Ha. destruct (Hruns a Ha) as (u & Hu & ->).
    exists u. by rewrite metric_of_build. }
  split; [apply Hframe; intros E; by apply key_inj in E|].
  split.
  { intros a Ha. destruct (Hruns a Ha) as (u & Hu & ->).
    rewrite metric_of_build. congruence. }
  intros b Hb. destruct (Hbut _ _ Hb) as [E _].
  by apply recalc_label_inj in E.
Qed.

Lemma section_same (w : World) (m : metric) (sel : Selection) (p : Page) :
  exists l, cache_effect w sel m p (metric_section w m sel p) l.
Proof.
  destruct (section_effect w m sel p)
    as (l & Hlog & Hruns & Hbut & Hframe & Hreuse & Hfresh & Hchange).
  cbv zeta in Hlog, Hruns, Hbut, Hframe, Hreuse, Hfresh, Hchange.
  exists l. split; [done|].
  split.
  { intros a Ha. destruct (Hruns a Ha) as (u & Hu & ->).
    exists u. by rewrite metric_of_build. }
  split.
  { intros v Hv Hb. destruct (Hreuse v Hv Hb) as [Hs Hn].
    split; [by rewrite Hs|]. intros a Ha. by destruct (Hn a). }
  split.
  { intros b Hb Hor. destruct (Hbut _ _ Hb) as [_ ->].
    destruct (Hfresh Hb Hor) as (u & Hu & Hin & Hm).
    exists u. split; [done|]. split; [done|].
    destruct (run w (build m u)); [done|].
    destruct Hm as [-> ->]. done. }
  destruct Hchange as [->|Hc]; [by left|by right].
Qed.

Lemma untouched_seq w sel m p p1 out l1 l2 :
  cache_untouched w sel m p (Ok tt, p1) l1 ->
  cache_untouched w sel m p1 out l2 ->
  cache_untouched w sel m p out (l1 ++ l2).
Proof.
  intros (Hlog1 & Hr1 & Hs1 & Hn1 & Hb1) (Hlog2 & Hr2 & Hs2 & Hn2 & Hb2).
  cbn [fst snd] in *.
  split; [by rewrite Hlog2, Hlog1, app_assoc|].
  split; [intros a Ha; apply in_app_or in Ha as [Ha|Ha]; auto|].
  split; [by rewrite Hs2|].
  split; [intros a Ha; apply in_app_or in Ha as [Ha|Ha]; auto|].
  intros b Hb. apply in_app_or in Hb as [Hb|Hb]; [by destruct (Hb1 b)|].
  by destruct (Hb2 b).
Qed.

Lemma effect_then_untouched w sel m p p1 out l1 l2 :
  cache_effect w sel m p (Ok tt, p1) l1 ->
  cache_untouched w sel m p1 out l2 ->
  cache_effect w sel m p out (l1 ++ l2).
Proof.
  intros (Hlog1 & Hr1 & Hreuse & Hfresh & Hchange)
         (Hlog2 & Hr2 & Hs2 & Hn2 & Hb2).
  cbn [fst snd] in *.
  split; [by rewrite Hlog2, Hlog1, app_assoc|].
  split; [intros a Ha; apply in_app_or in Ha as [Ha|Ha]; auto|].
  split.
  { intros v Hv Hb. destruct (Hreuse v Hv Hb) as [Hs Hn].
    split; [by rewrite Hs2|].
    intros a Ha. apply in_app_or in Ha as [Ha|Ha]; auto. }
  split.
  { intros b Hb Hor. apply in_app_or in Hb as [Hb|Hb];
      [|by destruct (Hb2 b)].
    destruct (Hfresh b Hb Hor) as (u & Hu & Hin & Hm).
    exists u. split; [done|]. split; [apply in_or_app; by left|].
    destruct (run w (build m u)); [by rewrite Hs2|].
    by destruct Hm as [[=] _]. }
  rewrite Hs2.
  destruct Hchange as [Hc|(u & x & Hu & Hx & Hin & Hc)]; [by left|].
  right. exists u, x. split; [done|]. split; [done|].
  split; [apply in_or_app; by left|done].
Qed.

Lemma untouched_then_effect w sel m p p1 out l1 l2 :
  cache_untouched w sel m p (Ok tt, p1) l1 ->
  cache_effect w sel m p1 out l2 ->
  cache_effect w sel m p out (l1 ++ l2).
Proof.
  intros (Hlog1 & Hr1 & Hs1 & Hn1 & Hb1)
         (Hlog2 & Hr2 & Hreuse & Hfresh & Hchange).
  cbn [fst snd] in *.
  split; [by rewrite Hlog2, Hlog1, app_assoc|].
  split; [intros a Ha; apply in_app_or in Ha as [Ha|Ha]; auto|].
  split.
  { intros v Hv Hb. rewrite <- Hs1 in Hv.
    destruct (Hreuse v Hv Hb) as [Hs Hn]. split; [done|].
    intros a Ha. apply in_app_or in Ha as [Ha|Ha]; auto. }
  split.
  { intros b Hb Hor. apply in_app_or in Hb as [Hb|Hb];
      [by destruct (Hb1 b)|].
    rewrite <- Hs1 in Hor.
    destruct (Hfresh b Hb Hor) as (u & Hu & Hin & Hm).
    exists u. split; [done|]. split; [apply in_or_app; by right|].
    destruct (run w (build m u)); [done|]. by rewrite <- Hs1. }
  rewrite <- Hs1.
  destruct Hchange as [Hc|(u & x & Hu & Hx & Hin & Hc)]; [by left|].
  right. exists u, x. split; [done|]. split; [done|].
  split; [apply in_or_app; by right|done].
Qed.

Lemma run_sections_cons w m' ms sel p :
  run_sections w (m' :: ms) sel p =
  match metric_section w m' sel p with
  | (Ok _, p1) => run_sections w ms sel p1
  | (Raise e, p1) => (Raise e, p1)
  end.
Proof. reflexivity. Qed.

Lemma sections_untouched (w : World) (sel : Selection) (m : metric)
    (ms : list metric) (p : Page) :
  ~ In m ms ->
  exists l, cache_untouched w sel m p (run_sections w ms sel p) l.
Proof.
  revert p. induction ms as [|m' ms IH]; intros p Hnin.
  - exists []. cbn [run_sections ret fst snd].
    split; [by rewrite app_nil_r|]. split; [intros a []|].
    split; [done|]. split; [intros a []|]. intros b [].
  - assert (m <> m') as Hne by (intros ->; apply Hnin; by left).
    assert (~ In m ms) as Hnin' by (intros H; apply Hnin; by right).
    destruct (section_other w m m' sel p Hne) as (l1 & H1).
    rewrite run_sections_cons.
    destruct (metric_section w m' sel p) as [[[]|e] p1].
    + destruct (IH p1 Hnin') as (l2 & H2).
      exists (l1 ++ l2). by apply (untouched_seq w sel m p p1).
    + exists l1. exact H1.
Qed.

Lemma sections_effect (w : World) (sel : Selection) (m : metric)
    (ms : list metric) (p : Page) :
  List.NoDup ms ->
  exists l, cache_effect w sel m p (run_sections w ms sel p) l.
Proof.
  revert p. induction ms as [|m' ms IH]; intros p Hnd.
  - destruct (sections_untouched w sel m [] p) as (l & H); [by intros []|].
    exists l. by apply cache_untouched_effect.
  - inversion Hnd as [|? ? Hnin Hnd']; subst.
    rewrite run_sections_cons.
    destruct (decide (m = m')) as [<-|Hne].
    + destruct (section_same w m sel p) as (l1 & H1).
      destruct (metric_section w m sel p) as [[[]|e] p1].
      * destruct (sections_untouched w sel m ms p1 Hnin) as (l2 & H2).
        exists (l1 ++ l2). by apply (effect_then_untouched w sel m p p1).
      * exists l1. exact H1.
    + destruct (section_other w m m' sel p Hne) as (l1 & H1).
      destruct (metric_section w m' sel p) as [[[]|e] p1].
      * destruct (IH p1 Hnd') as (l2 & H2).
        exists (l1 ++ l2). by apply (untouched_then_effect w sel m p p1).
      * exists l1. by apply cache_untouched_effect.
Qed.

Lemma sections_rendered (w : World) (sel : Selection) (ms : list metric)
    (p : Page) :
  exists l done_ rest,
    let out := run_sections w ms sel p in
    ms = done_ ++ rest /\
    log (snd out) = log p ++ l /\
    rendered l = map check_label done_ /\
    (forall a, In (EvRun a) l -> In (metric_of a) done_) /\
    (fst out = Ok tt -> rest = []) /\
    (forall e, fst out = Raise e ->
       exists m, last done_ = Some m /\ checkbox w (check_label m) = true).
Proof.
  revert p. induction ms as [|m ms IH]; intros p.
  - exists [], [], []. cbn [run_sections ret fst snd].
    split; [done|]. split; [by rewrite app_nil_r|]. split; [done|].
    split; [by intros a []|]. split; [done|]. by intros e [=].
  - rewrite run_sections_cons.
    destruct (section_rendered w m sel p) as (l1 & Hlog1 & Hr1 & Hrun1 & Hf1).
    cbv zeta in Hlog1, Hr1, Hrun1, Hf1.
    destruct (metric_section w m sel p) as [[[]|e] p1]; cbn [fst snd] in *.
    + destruct (IH p1) as (l2 & done_ & rest & Hms & Hlog2 & Hr2 & Hrun2
                           & Hok & Hraise).
      cbv zeta in Hms, Hlog2, Hr2, Hrun2, Hok, Hraise.
      exists (l1 ++ l2), (m :: done_), rest.
      split; [by rewrite Hms|].
      split; [by rewrite Hlog2, Hlog1, app_assoc|].
      split; [by rewrite rendered_app, Hr1, Hr2|].
      split.
      { intros a Ha. apply in_app_or in Ha as [Ha|Ha].
        - left. symmetry. by apply Hrun1.
        - right. by apply Hrun2. }
      split; [done|]. intros e He. destruct (Hraise e He) as (m' & Hl & Hc).
      exists m'. split; [|done].
      destruct done_ as [|d done_]; [discriminate Hl|]. exact Hl.
    + exists l1, [m], ms. split; [done|]. split; [done|]. split; [done|].
      split; [intros a Ha; left; symmetry; by apply Hrun1|].
      split; [by intros [=]|]. intros e' _. exists m. split; [done|].
      by apply (Hf1 e).
Qed.

(** Sections of other metrics leave the entry of [m] alone and do not
    render its checkbox. *)
Lemma sections_quiet (w : World) (sel : Selection) (m : metric)
    (ms : list metric) (p : Page) :
  ~ In m ms ->
  exists l,
    log (snd (run_sections w ms sel p)) = log p ++ l /\
    session (snd (run_sections w ms sel p)) !! key m = session p !! key m /\
    forall b, ~ In (EvCheckbox (check_label m) b) l.
Proof.
  intros Hnin.
  destruct (sections_untouched w sel m ms p Hnin) as (l & Hlog & _ & Hs & _).
  destruct (sections_rendered w sel ms p)
    as (l' & done_ & rest & Hms & Hlog' & Hr & _).
  cbv zeta in Hms, Hlog', Hr.
  assert (l' = l) as ->.
  { apply (app_inv_head (log p)). by rewrite <- Hlog, <- Hlog'. }
  exists l. split; [done|]. split; [done|].
  intros b Hb. apply rendered_in in Hb. rewrite Hr in Hb.
  apply in_map_iff in Hb as (m' & E & Hin).
  apply check_label_inj in E as ->.
  apply Hnin. rewrite Hms. apply in_or_app. by left.
Qed.

(** A run of the sections that renders the ticked checkbox of [m], with no
    value stored or the button pressed, leaves the fresh result stored. *)
Lemma sections_fresh (w : World) (sel : Selection) (m : metric)
    (ms : list metric) (u : Universe) (x : Results) (p : Page) :
  List.NoDup ms ->
  system w sel = Ok u ->
  run w (build m u) = Ok x ->
  session p !! key m = None \/ button w (recalc_label m) = true ->
  exists l,
    log (snd (run_sections w ms sel p)) = log p ++ l /\
    (In (EvCheckbox (check_label m) true) l ->
     session (snd (run_sections w ms sel p)) !! key m
     = Some {| analysis := build m u; results := x |} /\
     In (EvRun (build m u)) l).
Proof.
  intros Hnd Hsys Hr. revert p.
  induction ms as [|m' ms IH]; intros p Hor.
  - exists []. cbn [run_sections ret snd]. split; [by rewrite app_nil_r|].
    intros [].
  - inversion Hnd as [|? ? Hnin Hnd']; subst.
    rewrite run_sections_cons.
    destruct (decide (m = m')) as [<-|Hne].
    + destruct (checkbox w (check_label m)) eqn:Hc.
      * destruct (section_fresh w m sel p u x Hc Hsys Hr Hor)
          as (Hs1 & _ & Hlog1).
        cbv zeta in Hs1, Hlog1.
        set (l1 := EvCheckbox (check_label m) true :: _) in Hlog1.
        assert (Hrun : In (EvRun (build m u)) l1).
        { subst l1. right. apply in_or_app. right.
          destruct (session p !! key m) eqn:Hk;
            [|left; reflexivity].
          destruct Hor as [[=] | Hb]; rewrite Hb. cbn [app].
          right. left. reflexivity. }
        destruct (metric_section w m sel p) as [[[]|e] p1]; cbn [snd] in *.
        -- destruct (sections_quiet w sel m ms p1 Hnin) as (l2 & Hlog2 & Hs2 & _).
           exists (l1 ++ l2). split; [by rewrite Hlog2, Hlog1, app_assoc|].
           intros _. split; [by rewrite Hs2, Hs1, lookup_insert_eq|].
           apply in_or_app. by left.
        -- exists l1. split; [done|]. intros _.
           split; [by rewrite Hs1, lookup_insert_eq|done].
      * rewrite section_unfold, Hc.
        destruct (sections_quiet w sel m ms
                    (logged p [EvCheckbox (check_label m) false]) Hnin)
          as (l2 & Hlog2 & _ & Hq).
        exists (EvCheckbox (check_label m) false :: l2).
        split; [rewrite Hlog2; cbn [logged log]; by rewrite <- app_assoc|].
        intros [[=]|Hin]. by destruct (Hq true).
    + destruct (section_other w m m' sel p Hne) as (l1 & Hlog1 & _ & Hs1 & _).
      destruct (section_rendered w m' sel p) as (l1' & Hlog1' & Hr1 & _).
      cbv zeta in Hlog1', Hr1.
      assert (l1' = l1) as ->.
      { apply (app_inv_head (log p)). by rewrite <- Hlog1, <- Hlog1'. }
      assert (Hq : forall b, ~ In (EvCheckbox (check_label m) b) l1).
      { intros b Hb. apply rendered_in in Hb. rewrite Hr1 in Hb.
        destruct Hb as [E|[]]. apply check_label_inj in E. by apply Hne. }
      destruct (metric_section w m' sel p) as [[[]|e] p1]; cbn [snd] in *.
      * destruct (IH Hnd' p1) as (l2 & Hlog2 & H2); [by rewrite Hs1|].
        exists (l1 ++ l2). split; [by rewrite Hlog2, Hlog1, app_assoc|].
        intros Hin. apply in_app_or in Hin as [Hin|Hin];
          [by destruct (Hq true)|].
        destruct (H2 Hin) as [Hs Hrun]. split; [done|].
        apply in_or_app. by right.
      * exists l1. split; [done|]. intros Hin. by destruct (Hq true).
Qed.

Lemma metrics_nodup : List.NoDup [RDF; LDENS; MSD; DIEL].
Proof.
  repeat constructor; simpl; intuition discriminate.
Qed.

(** The whole script, seen from the cache entry of one metric. *)
Lemma script_effect (w : World) (m : metric) (s : gmap string Ran) :
  cache_effect w (selection w) m {| session := s; log := [] |}
    (script w s) (log (snd (script w s))).
Proof.
  unfold script. rewrite page_sections.
  set (p0 := logged _ _).
  destruct (sections_effect w (selection w) m [RDF; LDENS; MSD; DIEL] p0
              metrics_nodup) as (l & Hlog & Hruns & Hreuse & Hfresh & Hchange).
  assert (Hin : forall e, In e l -> In e (log (snd (run_sections w
                  [RDF; LDENS; MSD; DIEL] (selection w) p0)))).
  { intros e He. rewrite Hlog. apply in_or_app. by right. }
  assert (Hrun : forall a, In (EvRun a) (log (snd (run_sections w
                   [RDF; LDENS; MSD; DIEL] (selection w) p0))) ->
                 In (EvRun a) l).
  { intros a Ha. rewrite Hlog in Ha. subst p0. cbn [logged log app] in Ha.
    repeat (destruct Ha as [Ha|Ha]; [discriminate Ha|]). exact Ha. }
  assert (Hbt : forall lb b, In (EvButton lb b) (log (snd (run_sections w
                   [RDF; LDENS; MSD; DIEL] (selection w) p0))) ->
                 In (EvButton lb b) l).
  { intros lb b Ha. rewrite Hlog in Ha. subst p0. cbn [logged log app] in Ha.
    repeat (destruct Ha as [Ha|Ha]; [discriminate Ha|]). exact Ha. }
  split; [done|]. split; [intros a Ha; by apply Hruns, Hrun|].
  split.
  { intros v Hv Hb. destruct (Hreuse v Hv Hb) as [Hs Hn].
    split; [done|]. intros a Ha. by apply Hn, Hrun. }
  split.
  { intros b Hb Hor. destruct (Hfresh b (Hbt _ _ Hb) Hor) as (u & Hu & Hi & Hm).
    exists u. split; [done|]. split; [by apply Hin|]. exact Hm. }
  destruct Hchange as [Hc|(u & x & Hu & Hx & Hi & Hc)]; [by left|].
  right. exists u, x. split; [done|]. split; [done|].
  split; [by apply Hin|done].
Qed.

Lemma script_fresh (w : World) (m : metric) (s : gmap string Ran)
    (u : Universe) (x : Results) :
  In (EvCheckbox (check_label m) true) (log (snd (script w s))) ->
  system w (selection w) = Ok u ->
  run w (build m u) = Ok x ->
  s !! key m = None \/ button w (recalc_label m) = true ->
  session (snd (script w s)) !! key m
  = Some {| analysis := build m u; results := x |} /\
  In (EvRun (build m u)) (log (snd (script w s))).
Proof.
  unfold script. rewrite page_sections. set (p0 := logged _ _).
  intros Hin Hsys Hr Hor.
  destruct (sections_fresh w (selection w) m [RDF; LDENS; MSD; DIEL] u x p0
              metrics_nodup Hsys Hr Hor) as (l & Hlog & H).
  rewrite Hlog in Hin |- *.
  apply in_app_or in Hin as [Hin|Hin].
  { subst p0. cbn [logged log app] in Hin.
    repeat (destruct Hin as [Hin|Hin]; [discriminate Hin|]). destruct Hin. }
  destruct (H Hin) as [Hs Hrun]. split; [done|].
  apply in_or_app. by right.
Qed.

(** ** Caching and recomputation *)

Lemma script_reuse (w : World) (m : metric) (s : gmap string Ran) (v : Ran) :
  s !! key m = Some v ->
  button w (recalc_label m) = false ->
  session (snd (script w s)) !! key m = Some v /\
  forall a, In (EvRun a) (log (snd (script w s))) -> metric_of a <> m.
Proof.
  intros Hv Hb.
  destruct (script_effect w m s) as (_ & _ & Hreuse & _).
  exact (Hreuse v Hv Hb).
Qed.

Lemma reruns_reuse (m : metric) (ws : list World) (s : gmap string Ran)
    (v : Ran) :
  s !! key m = Some v ->
  Forall (fun w => button w (recalc_label m) = false) ws ->
  reruns ws s !! key m = Some v.
Proof.
  intros Hv Hws. revert s Hv.
  induction Hws as [|w ws Hb _ IH]; intros s Hv; [done|].
  simpl. apply IH. by apply script_reuse.
Qed.

(** C4. For each metric: (1) first use and recalculation. A section whose
    box is ticked and whose System builds, entered with no value stored
    under the metric's key or with the recalculate button pressed, runs the
    analysis on the System of the current selection (once for the missing
    value, once more for the pressed button), stores the object the
    analysis returned under the metric's key, over whatever was there, and
    goes on to display that object; this from any page state. (2) Over a
    whole script run: when the run renders the metric's ticked checkbox
    with no value stored at its start, or with the button pressed, and the
    analysis returns, the run has run the analysis and ends with its result
    stored, and any number of further runs without a press of that button
    keep that very result. (3) Once a value is stored, any sequence of
    re-runs in which that metric's recalculate button is never pressed
    leaves it stored unchanged, whatever the selections, files and other
    widgets of those runs; (4) such a run does not run the metric's analysis
    at all; (5) a run that reaches the metric's recalculate button with no
    value stored at its start, or with the button pressed, has run the
    analysis on the System of its current selection, and stores the result
    when the analysis returns (if the recalculation raises, the run ends in
    that exception and the old value stays); (6) a stored value changes in
    no other way than by such a completed run. *)
Theorem cache_semantics (m : metric) :
  (forall w sel p u x,
      checkbox w (check_label m) = true ->
      system w sel = Ok u ->
      run w (build m u) = Ok x ->
      session p !! key m = None \/ button w (recalc_label m) = true ->
      let v := {| analysis := build m u; results := x |} in
      let b := button w (recalc_label m) in
      let out := metric_section w m sel p in
      session (snd out) = <[key m := v]> (session p) /\
      fst out = fst (present w m v blank) /\
      log (snd out) =
        log p ++ EvCheckbox (check_label m) true :: system_calls w sel ++
        match session p !! key m with
        | None => [EvRun (build m u)]
        | Some _ => []
        end ++
        EvButton (recalc_label m) b ::
        (if b then [EvRun (build m u)] else []) ++
        log (snd (present w m v blank))) /\
  (forall w ws s u x,
      In (EvCheckbox (check_label m) true) (log (snd (script w s))) ->
      system w (selection w) = Ok u ->
      run w (build m u) = Ok x ->
      s !! key m = None \/ button w (recalc_label m) = true ->
      Forall (fun w' => button w' (recalc_label m) = false) ws ->
      let v := {| analysis := build m u; results := x |} in
      In (EvRun (build m u)) (log (snd (script w s))) /\
      session (snd (script w s)) !! key m = Some v /\
      reruns (w :: ws) s !! key m = Some v) /\
  (forall ws s v,
      s !! key m = Some v ->
      Forall (fun w => button w (recalc_label m) = false) ws ->
      reruns ws s !! key m = Some v) /\
  (forall w s v,
      s !! key m = Some v ->
      button w (recalc_label m) = false ->
      session (snd (script w s)) !! key m = Some v /\
      forall a, In (EvRun a) (log (snd (script w s))) -> metric_of a <> m) /\
  (forall w s b,
      In (EvButton (recalc_label m) b) (log (snd (script w s))) ->
      s !! key m = None \/ b = true ->
      exists u,
        system w (selection w) = Ok u /\
        In (EvRun (build m u)) (log (snd (script w s))) /\
        match run w (build m u) with
        | Ok x => session (snd (script w s)) !! key m
                  = Some {| analysis := build m u; results := x |}
        | Raise e => fst (script w s) = Raise e /\
                     session (snd (script w s)) !! key m = s !! key m
        end) /\
  (forall w s,
      session (snd (script w s)) !! key m = s !! key m \/
      exists u x,
        system w (selection w) = Ok u /\ run w (build m u) = Ok x /\
        In (EvRun (build m u)) (log (snd (script w s))) /\
        session (snd (script w s)) !! key m
        = Some {| analysis := build m u; results := x |}).
Proof.
  split; [intros w sel p u x; apply section_fresh|].
  split.
  { intros w ws s u x Hin Hsys Hr Hor Hws v.
    destruct (script_fresh w m s u x Hin Hsys Hr Hor) as [Hs Hrun].
    split; [done|]. split; [done|].
    cbn [reruns]. by apply reruns_reuse. }
  split; [intros ws s v; apply reruns_reuse|].
  split; [intros w s v; apply script_reuse|].
  split.
  - intros w s b Hb Hor.
    destruct (script_effect w m s) as (_ & _ & _ & Hfresh & _).
    exact (Hfresh b Hb Hor).
  - intros w s. destruct (script_effect w m s) as (_ & _ & _ & _ & Hchange).
    exact Hchange.
Qed.

(** Three runs of one session: the first ticks the MSD box and stores the
    series it computes; the second meets another trajectory and another
    series but no button press, and keeps the stored one; the third has the
    button pressed and stores the new series, computed on the trajectory
    selected then. *)
Lemma cache_semantics_witness :
  let w1 := example_world ["a.xyz"] ["topo.mol2"] ["box.pbc"] [MSD] []
              None [0; 6; 12]%Q in
  let w2 := example_world ["b.xyz"] ["topo.mol2"] ["box.pbc"] [MSD] []
              None [0; 7; 14]%Q in
  let w3 := example_world ["b.xyz"] ["topo.mol2"] ["box.pbc"] [MSD] [MSD]
              None [0; 7; 14]%Q in
  let u xyz := {| topology := Some "topo.mol2"; coordinates := Some xyz;
                  format := "XYZ"; topology_format := "MOL2";
                  dimensions := Some [18; 18; 18; 90; 90; 90]%Q;
                  transformations := [] |} in
  let v1 := {| analysis := EinsteinMSD (u "a.xyz") "all" "xyz" true;
               results := MsdResults [0; 6; 12]%Q 3 |} in
  let v3 := {| analysis := EinsteinMSD (u "b.xyz") "all" "xyz" true;
               results := MsdResults [0; 7; 14]%Q 3 |} in
  In (EvRun (analysis v1)) (log (snd (script w1 ∅))) /\
  reruns [w1] ∅ !! "MSD" = Some v1 /\
  reruns [w1; w2] ∅ !! "MSD" = Some v1 /\
  (forall a, In (EvRun a) (log (snd (script w2 (reruns [w1] ∅)))) ->
     metric_of a <> MSD) /\
  In (EvRun (analysis v3)) (log (snd (script w3 (reruns [w1; w2] ∅)))) /\
  reruns [w1; w2; w3] ∅ !! "MSD" = Some v3.
Proof.
  intros w1 w2 w3 u v1 v3.
  destruct (cache_semantics MSD) as (_ & Hfresh & _ & Hreuse & _).
  destruct (Hfresh w1 [w2] ∅ (u "a.xyz") (MsdResults [0; 6; 12]%Q 3))
    as (Hrun1 & Hs1 & Hs2);
    [vm_compute; tauto | reflexivity | reflexivity | left; reflexivity
    | repeat constructor |].
  destruct (Hreuse w2 (reruns [w1] ∅) v1) as [_ Hnone];
    [exact Hs1 | reflexivity |].
  destruct (Hfresh w3 [] (reruns [w1; w2] ∅) (u "b.xyz")
              (MsdResults [0; 7; 14]%Q 3))
    as (Hrun3 & _ & Hs3);
    [vm_compute; tauto | reflexivity | reflexivity | right; reflexivity
    | constructor |].
  split; [exact Hrun1|]. split; [exact Hs1|]. split; [exact Hs2|].
  split; [exact Hnone|]. split; [exact Hrun3|]. exact Hs3.
Defined.

(** ** The RDF analysis *)




(** ** Missing selections *)

Lemma system_fails (w : World) (sel : Selection) :
  pbc_selection sel = None \/
  (exists e, mda_Universe w (topo_selection sel) (xyz_selection sel) = Raise e) ->
  exists e, system w sel = Raise e.
Proof.
  unfold system, create_u, open_read. unfold bind, emit, lift, raise, ret.
  cbn [session log blank].
  intros [Hpbc|[e He]].
  - rewrite Hpbc. destruct (mda_Universe w _ _) as [[]|e]; cbn [fst]; eauto.
  - rewrite He. cbn [fst]. eauto.
Qed.

Lemma section_fail (w : World) (m : metric) (sel : Selection) (p : Page)
    (e : exn) :
  system w sel = Raise e ->
  metric_section w m sel p =
  if checkbox w (check_label m)
  then (Raise e,
        logged p (EvCheckbox (check_label m) true :: system_calls w sel))
  else (Ok tt, logged p [EvCheckbox (check_label m) false]).
Proof.
  intros Hsys. unfold metric_section, st_sidebar_checkbox, bind, emit, ret.
  cbn [session log]. destruct (checkbox w (check_label m)); [|done].
  rewrite create_u_eq, Hsys. unfold logged. cbn [session log].
  by rewrite <- app_assoc.
Qed.

Ltac no_such_event :=
  repeat match goal with
         | H : In _ (_ ++ _) |- _ => apply in_app_or in H as [H|H]
         | H : In _ (_ :: _) |- _ => destruct H as [H|H]
         | H : In _ [] |- _ => destruct H
         | H : _ = EvRun _ |- _ => discriminate H
         | H : In (EvRun _) ?l, P : Forall passive ?l |- _ =>
             destruct (passive_not_run _ _ P H)
         end.

(** C3 (as the code has it). The page has no guard on the selections: a
    ticked metric always attempts the System build, calling the loader
    on the selections as they are. When the box-file selection is absent
    (so that [open(None)] raises), or the loader rejects what it is given,
    the build fails and the run ends in that uncaught exception at the
    first ticked metric: no analysis is run and the session is left as it
    was. With no box ticked the run completes. *)
Theorem missing_selection_blocks (w : World) (s : gmap string Ran) :
  pbc_selection (selection w) = None \/
  (exists e, mda_Universe w (topo_selection (selection w))
               (xyz_selection (selection w)) = Raise e) ->
  session (snd (script w s)) = s /\
  (forall a, ~ In (EvRun a) (log (snd (script w s)))) /\
  ((exists m, checkbox w (check_label m) = true) ->
     (exists e, fst (script w s) = Raise e) /\
     In (EvUniverse (topo_selection (selection w))
           (xyz_selection (selection w)))
        (log (snd (script w s)))) /\
  ((forall m, checkbox w (check_label m) = false) -> fst (script w s) = Ok tt).
Proof.
  intros Hmiss. destruct (system_fails w (selection w) Hmiss) as [e Hsys].
  pose proof (system_calls_passive w (selection w)) as Hpass.
  pose proof (system_calls_head w (selection w)) as Hhead.
  unfold script. rewrite page_sections. unfold run_sections, bind, ret.
  rewrite (section_fail w RDF _ _ e Hsys).
  destruct (checkbox w (check_label RDF)) eqn:H1.
  2: rewrite (section_fail w LDENS _ _ e Hsys);
     destruct (checkbox w (check_label LDENS)) eqn:H2.
  3: rewrite (section_fail w MSD _ _ e Hsys);
     destruct (checkbox w (check_label MSD)) eqn:H3.
  4: rewrite (section_fail w DIEL _ _ e Hsys);
     destruct (checkbox w (check_label DIEL)) eqn:H4.
  all: cbn [fst snd logged session log app].
  all: split; [done|].
  all: split; [intros a Ha; no_such_event|].
  all: split.
  all: try (intros _; split; [by exists e|];
            simpl; tauto).
  all: try (intros Hall; first [ by rewrite (Hall RDF) in H1
                               | by rewrite (Hall LDENS) in H2
                               | by rewrite (Hall MSD) in H3
                               | by rewrite (Hall DIEL) in H4 ]).
  intros [[] Hm]; congruence.
Qed.

Lemma missing_selection_blocks_witness :
  let w := example_world ["traj.xyz"] ["topo.mol2"] [] [LDENS] [] None [] in
  session (snd (script w ∅)) = ∅ /\
  (forall a, ~ In (EvRun a) (log (snd (script w ∅)))) /\
  ((exists m, checkbox w (check_label m) = true) ->
     (exists e, fst (script w ∅) = Raise e) /\
     In (EvUniverse (topo_selection (selection w))
           (xyz_selection (selection w)))
        (log (snd (script w ∅)))) /\
  ((forall m, checkbox w (check_label m) = false) -> fst (script w ∅) = Ok tt).
Proof.
  intros w. apply (missing_selection_blocks w ∅). left. reflexivity.
Defined.

(** C3 (as the spec states it) fails on the code. With a trajectory and a
    topology but no box file in the directory, ticking the RDF box makes
    the page call the loader on the two files and then [open] on the absent
    selection; with no file at all, ticking the MSD box makes it call the
    loader on two absent selections. The System build is attempted on a
    missing selection both times, and the failure is the uncaught
    exception of that attempt. *)
Lemma missing_selection_counterexample :
  pbc_selection
    (selection (example_world ["traj.xyz"] ["topo.mol2"] [] [RDF] [] None []))
    = None /\
  log (snd (script (example_world ["traj.xyz"] ["topo.mol2"] [] [RDF] []
                      None []) ∅)) =
    [EvSetPageConfig "wide";
     EvSelectbox "Select trajectory file" ["traj.xyz"] (Some "traj.xyz");
     EvSelectbox "Select topology file" ["topo.mol2"] (Some "topo.mol2");
     EvSelectbox "Select pbc file" [] None;
     EvCheckbox "Calculate RDFs" true;
     EvUniverse (Some "topo.mol2") (Some "traj.xyz");
     EvOpen None] /\
  fst (script (example_world ["traj.xyz"] ["topo.mol2"] [] [RDF] []
                 None []) ∅) =
    Raise (TypeError "expected str, bytes or os.PathLike object, not NoneType")
  /\
  log (snd (script (example_world [] [] [] [MSD] [] None []) ∅)) =
    [EvSetPageConfig "wide";
     EvSelectbox "Select trajectory file" [] None;
     EvSelectbox "Select topology file" [] None;
     EvSelectbox "Select pbc file" [] None;
     EvCheckbox "Calculate RDFs" false;
     EvCheckbox "Calculate Linear Density" false;
     EvCheckbox "Calculate MSD and self-diffusivity" true;
     EvUniverse None None] /\
  fst (script (example_world [] [] [] [MSD] [] None []) ∅) =
    Raise (TypeError "Topology argument required to make Universe.").
Proof. vm_compute. repeat split. Qed.

(** * Further properties of the page *)

(** ** What a section shows *)

(** X3. A ticked section whose System builds shows exactly the value it
    leaves in the cache: either the analysis it had to run raised (then
    the run ends there, nothing is shown and the session is as before), or
    the display is that of the value stored under the metric's key when the
    section ends. With a value already stored and the button not pressed,
    the System of the current selection is still rebuilt, no analysis is
    run, and the old value is what is shown. *)
Theorem section_shows_what_it_stores (w : World) (m : metric)
    (sel : Selection) (p : Page) (u : Universe) :
  checkbox w (check_label m) = true ->
  system w sel = Ok u ->
  let out := metric_section w m sel p in
  let opening := EvCheckbox (check_label m) true :: system_calls w sel in
  ((exists e lc,
       run w (build m u) = Raise e /\ fst out = Raise e /\
       session (snd out) = session p /\
       log (snd out) = log p ++ opening ++ lc /\
       Forall (fun ev => ev = EvRun (build m u) \/
                         ev = EvButton (recalc_label m)
                                (button w (recalc_label m))) lc) \/
   (exists v lc,
       session (snd out) !! key m = Some v /\
       fst out = fst (present w m v blank) /\
       log (snd out) =
         log p ++ opening ++ lc ++ log (snd (present w m v blank)) /\
       Forall (fun ev => ev = EvRun (build m u) \/
                         ev = EvButton (recalc_label m)
                                (button w (recalc_label m))) lc)) /\
  (forall v0,
      session p !! key m = Some v0 ->
      button w (recalc_label m) = false ->
      out = (fst (present w m v0 blank),
             logged p (opening ++ [EvButton (recalc_label m) false] ++
                       log (snd (present w m v0 blank))))).
Proof.
  intros Hc Hsys out opening. subst out.
  rewrite section_unfold, Hc, Hsys. cbv zeta. fold opening.
  destruct (cached_outcome w m (build m u) (logged p opening))
    as (lc & Hlog & Hev & Hframe & Hout & Hreuse).
  cbv zeta in Hlog, Hev, Hframe, Hout, Hreuse. split.
  - destruct (cached w m (build m u) (logged p opening)) as [[v|e] p2];
      cbn [fst snd] in *.
    + right. exists v, lc. destruct Hout as [Hv _].
      split; [done|]. split; [done|]. split; [|done].
      cbn [logged log session]. rewrite Hlog. cbn [logged log session].
      by rewrite <- !app_assoc.
    + left. exists e, lc. destruct Hout as (Hr & Hs & _).
      split; [done|]. split; [done|]. split; [done|]. split; [|done].
      rewrite Hlog. cbn [logged log session]. by rewrite <- !app_assoc.
  - intros v0 Hv0 Hb. rewrite (Hreuse v0 Hv0 Hb).
    by rewrite !logged_logged, <- ?app_assoc.
Qed.

Lemma section_shows_what_it_stores_witness :
  let w := example_world ["b.xyz"] ["topo.mol2"] ["box.pbc"] [DIEL] []
             None [] in
  let sel := selection w in
  let u := {| topology := Some "topo.mol2"; coordinates := Some "b.xyz";
              format := "XYZ"; topology_format := "MOL2";
              dimensions := Some [18; 18; 18; 90; 90; 90]%Q;
              transformations := [] |} in
  let old := {| analysis := build DIEL u; results := DielResults 80 |} in
  let p := {| session := {[ "diel" := old ]}; log := [] |} in
  let out := metric_section w DIEL sel p in
  let opening := EvCheckbox (check_label DIEL) true :: system_calls w sel in
  ((exists e lc,
       run w (build DIEL u) = Raise e /\ fst out = Raise e /\
       session (snd out) = session p /\
       log (snd out) = log p ++ opening ++ lc /\
       Forall (fun ev => ev = EvRun (build DIEL u) \/
                         ev = EvButton (recalc_label DIEL)
                                (button w (recalc_label DIEL))) lc) \/
   (exists v lc,
       session (snd out) !! key DIEL = Some v /\
       fst out = fst (present w DIEL v blank) /\
       log (snd out) =
         log p ++ opening ++ lc ++ log (snd (present w DIEL v blank)) /\
       Forall (fun ev => ev = EvRun (build DIEL u) \/
                         ev = EvButton (recalc_label DIEL)
                                (button w (recalc_label DIEL))) lc)) /\
  (forall v0,
      session p !! key DIEL = Some v0 ->
      button w (recalc_label DIEL) = false ->
      out = (fst (present w DIEL v0 blank),
             logged p (opening ++ [EvButton (recalc_label DIEL) false] ++
                       log (snd (present w DIEL v0 blank))))).
Proof.
  intros w sel u old p.
  apply (section_shows_what_it_stores w DIEL sel p u); reflexivity.
Defined.

(** ** Which keys a run writes *)

Lemma section_key_frame (w : World) (m : metric) (sel : Selection) (p : Page)
    (k : string) :
  (k = key m -> checkbox w (check_label m) = false) ->
  session (snd (metric_section w m sel p)) !! k = session p !! k.
Proof.
  intros Hk. destruct (decide (k = key m)) as [E|Hne].
  - rewrite section_unfold, (Hk E). done.
  - destruct (section_effect w m sel p) as (l & _ & _ & _ & Hframe & _).
    by apply Hframe.
Qed.

Lemma section_runs_ticked (w : World) (m : metric) (sel : Selection)
    (p : Page) (a : Analysis) :
  In (EvRun a) (log (snd (metric_section w m sel p))) ->
  In (EvRun a) (log p) \/
  (metric_of a = m /\ checkbox w (check_label m) = true).
Proof.
  destruct (checkbox w (check_label m)) eqn:Hc.
  - destruct (section_effect w m sel p) as (l & Hlog & Hruns & _).
    cbv zeta in Hlog, Hruns. rewrite Hlog. intros Ha.
    apply in_app_or in Ha as [Ha|Ha]; [by left|right].
    destruct (Hruns a Ha) as (u & _ & ->). by rewrite metric_of_build.
  - rewrite section_unfold, Hc. cbn [snd logged log]. intros Ha.
    apply in_app_or in Ha as [Ha|[Ha|[]]]; [by left|discriminate Ha].
Qed.

Lemma sections_key_frame (w : World) (sel : Selection) (ms : list metric)
    (p : Page) (k : string) :
  (forall m, In m ms -> k = key m -> checkbox w (check_label m) = false) ->
  session (snd (run_sections w ms sel p)) !! k = session p !! k.
Proof.
  revert p. induction ms as [|m ms IH]; intros p Hk; [done|].
  rewrite run_sections_cons.
  pose proof (section_key_frame w m sel p k (Hk m (or_introl eq_refl))) as Hm.
  destruct (metric_section w m sel p) as [[[]|e] p1]; cbn [snd] in *;
    [|done].
  rewrite IH; [done|]. intros m' Hin. apply Hk. by right.
Qed.

Lemma sections_runs_ticked (w : World) (sel : Selection) (ms : list metric)
    (p : Page) (a : Analysis) :
  In (EvRun a) (log (snd (run_sections w ms sel p))) ->
  In (EvRun a) (log p) \/
  (In (metric_of a) ms /\ checkbox w (check_label (metric_of a)) = true).
Proof.
  revert p. induction ms as [|m ms IH]; intros p; [by left|].
  rewrite run_sections_cons.
  pose proof (section_runs_ticked w m sel p a) as Hm.
  destruct (metric_section w m sel p) as [[[]|e] p1]; cbn [snd] in *.
  - intros Ha. destruct (IH p1 Ha) as [Hp1|[Hin Hc]].
    + destruct (Hm Hp1) as [?|[<- Hc]]; [by left|].
      right. split; [by left|done].
    + right. split; [by right|done].
  - intros Ha. destruct (Hm Ha) as [?|[<- Hc]]; [by left|].
    right. split; [by left|done].
Qed.

(** X2. A script run writes the session under the keys of ticked metrics
    only: any other key, be it the key of an unticked metric or a key the
    page does not know, keeps the value it had; and every analysis a run
    invokes belongs to a metric whose box is ticked. *)
Theorem unticked_metrics_untouched (w : World) (s : gmap string Ran) :
  (forall k,
      (forall m, k = key m -> checkbox w (check_label m) = false) ->
      session (snd (script w s)) !! k = s !! k) /\
  (forall a,
      In (EvRun a) (log (snd (script w s))) ->
      checkbox w (check_label (metric_of a)) = true).
Proof.
  unfold script. rewrite page_sections. split.
  - intros k Hk. rewrite sections_key_frame; [done|]. intros m _. apply Hk.
  - intros a Ha. apply sections_runs_ticked in Ha as [Ha|[_ Hc]]; [|done].
    cbn [logged log app] in Ha.
    repeat (destruct Ha as [Ha|Ha]; [discriminate Ha|]). destruct Ha.
Qed.

(** ** Where cached values come from *)

Lemma stored_by_mono (W W' : World -> Prop) m v :
  (forall w, W w -> W' w) -> stored_by W m v -> stored_by W' m v.
Proof.
  intros HW (w & u & x & Hw & Hrest). exists w, u, x. split; [auto|done].
Qed.

Lemma script_provenance (W : World -> Prop) (w : World)
    (s : gmap string Ran) :
  W w ->
  (forall m v, s !! key m = Some v -> stored_by W m v) ->
  forall m v, session (snd (script w s)) !! key m = Some v -> stored_by W m v.
Proof.
  intros Hw Hs m v Hv.
  destruct (script_effect w m s) as (_ & _ & _ & _ & Hchange).
  cbn [session] in Hchange.
  destruct Hchange as [E|(u & x & Hu & Hx & _ & Hst)].
  - apply Hs. by rewrite <- E.
  - rewrite Hst in Hv. injection Hv as <-. by exists w, u, x.
Qed.

Lemma reruns_provenance (W : World -> Prop) (ws : list World)
    (s : gmap string Ran) :
  (forall w, In w ws -> W w) ->
  (forall m v, s !! key m = Some v -> stored_by W m v) ->
  forall m v, reruns ws s !! key m = Some v -> stored_by W m v.
Proof.
  revert s. induction ws as [|w ws IH]; intros s HW Hs m v; [apply Hs|].
  simpl. apply IH; [intros w' Hw'; apply HW; by right|].
  apply script_provenance; [apply HW; by left|done].
Qed.

(** X1. In a session that started empty, whatever the runs since, a value
    cached under a metric's key is always the object that metric's analysis
    returned in one of those runs, configured by the page on the System of
    that run's selection. In particular it is an analysis of that metric,
    and a cached MSD object has the dimensionality factor 3 the
    self-diffusivity divides by. *)
Theorem cache_provenance (ws : list World) (m : metric) (v : Ran) :
  reruns ws ∅ !! key m = Some v ->
  stored_by (fun w => In w ws) m v /\
  metric_of (analysis v) = m /\
  (m = MSD -> dim_fac (analysis v) = Ok 3).
Proof.
  intros Hv.
  assert (Hst : stored_by (fun w => In w ws) m v).
  { apply (reruns_provenance _ ws ∅); [done | | done].
    intros m' v' Hv'. by rewrite lookup_empty in Hv'. }
  split; [done|]. destruct Hst as (w & u & x & _ & _ & _ & ->).
  cbn [analysis]. split; [apply metric_of_build|]. by intros ->.
Qed.

Lemma cache_provenance_witness :
  let w := example_world ["a.xyz"] ["topo.mol2"] ["box.pbc"] [MSD] []
             None [0; 6; 12]%Q in
  let v := {| analysis :=
                EinsteinMSD
                  {| topology := Some "topo.mol2"; coordinates := Some "a.xyz";
                     format := "XYZ"; topology_format := "MOL2";
                     dimensions := Some [18; 18; 18; 90; 90; 90]%Q;
                     transformations := [] |} "all" "xyz" true;
              results := MsdResults [0; 6; 12]%Q 3 |} in
  stored_by (fun w' => In w' [w]) MSD v /\
  metric_of (analysis v) = MSD /\
  (MSD = MSD -> dim_fac (analysis v) = Ok 3).
Proof.
  intros w v. apply (cache_provenance [w] MSD v). vm_compute. reflexivity.
Defined.

(** ** The order of the sections *)

(** X7. A run renders the metric sections from the top, in the order RDF,
    linear density, MSD, dielectric, and stops at the first one that
    raises: the checkboxes it has rendered are those of an initial stretch
    of that order, all four when the run completes; when the run ends in an
    exception, the last section rendered is a ticked one, and no later
    section is rendered at all. Only rendered sections run an analysis. *)
Theorem sections_render_in_order (w : World) (s : gmap string Ran) :
  exists done_ rest,
    sections = done_ ++ rest /\
    rendered (log (snd (script w s))) = map check_label done_ /\
    (forall a, In (EvRun a) (log (snd (script w s))) ->
       In (metric_of a) done_) /\
    (fst (script w s) = Ok tt -> rest = []) /\
    (forall e, fst (script w s) = Raise e ->
       exists m, last done_ = Some m /\ checkbox w (check_label m) = true).
Proof.
  unfold script. rewrite page_sections. set (p0 := logged _ _).
  destruct (sections_rendered w (selection w) sections p0)
    as (l & done_ & rest & Hms & Hlog & Hr & Hrun & Hok & Hraise).
  cbv zeta in Hms, Hlog, Hr, Hrun, Hok, Hraise.
  exists done_, rest. split; [done|].
  fold sections. rewrite Hlog. split.
  - rewrite rendered_app, Hr. subst p0. reflexivity.
  - split; [|done]. intros a Ha. apply in_app_or in Ha as [Ha|Ha];
      [|by apply Hrun].
    subst p0. cbn [logged log app] in Ha.
    repeat (destruct Ha as [Ha|Ha]; [discriminate Ha|]). destruct Ha.
Qed.

(** ** A failed build *)

(** X4. When the System build fails (the box-file selection is absent, or
    the loader raises), a run shows nothing at all, whatever results the
    session holds: no text, no chart, no slider, no read of the reference
    data, no regression, and no recalculate button is rendered. *)
Theorem failed_build_shows_nothing (w : World) (s : gmap string Ran) :
  pbc_selection (selection w) = None \/
  (exists e, mda_Universe w (topo_selection (selection w))
               (xyz_selection (selection w)) = Raise e) ->
  Forall (fun e => ~ display_event e /\ passive e) (log (snd (script w s))).
Proof.
  intros Hmiss. destruct (system_fails w (selection w) Hmiss) as [e Hsys].
  assert (Hcalls : Forall (fun e => ~ display_event e /\ passive e)
                     (system_calls w (selection w))).
  { pose proof (system_calls_build w (selection w)) as Hb.
    induction Hb as [|ev l Hev _ IH]; constructor; [|done].
    destruct ev; try destruct Hev; (split; [intros []|exact I]). }
  unfold script. rewrite page_sections. unfold run_sections, bind, ret.
  rewrite (section_fail w RDF _ _ e Hsys).
  destruct (checkbox w (check_label RDF)).
  2: rewrite (section_fail w LDENS _ _ e Hsys);
     destruct (checkbox w (check_label LDENS)).
  3: rewrite (section_fail w MSD _ _ e Hsys);
     destruct (checkbox w (check_label MSD)).
  4: rewrite (section_fail w DIEL _ _ e Hsys);
     destruct (checkbox w (check_label DIEL)).
  all: cbn [fst snd logged session log app].
  all: repeat (apply Forall_cons; split; [split; [intros []|exact I]|]).
  all: first [exact Hcalls | constructor].
Qed.

Lemma failed_build_shows_nothing_witness :
  Forall (fun e => ~ display_event e /\ passive e)
    (log (snd (script
                 (example_world ["traj.xyz"] ["topo.mol2"] []
                    [RDF; MSD] [MSD] None [])
                 {[ "MSD" := {| analysis := build MSD
                                  {| topology := None; coordinates := None;
                                     format := "XYZ"; topology_format := "MOL2";
                                     dimensions := None;
                                     transformations := [] |};
                                results := MsdResults [0; 6; 12]%Q 3 |} ]}))).
Proof.
  apply failed_build_shows_nothing. left. reflexivity.
Defined.

(** ** The fit never sees the last frame *)

(** X5. Whatever window the slider returns inside its range, every point
    handed to the regression is the lag-time and MSD value of a frame other
    than the last one: the frame at the end of the window is left out, so
    at most [n_frames - 1] points are fitted; with the slider untouched
    (its default, the full range) the fit takes all frames but the last. *)
Theorem fit_leaves_out_last_frame (w : World) (v : Ran) (msd : list Q)
    (n : nat) (st et : Z) (xs ys : list Q) :
  results v = MsdResults msd n ->
  length msd = n ->
  (1 <= n)%nat ->
  slider w "Select start and end time (ps):" 0 ((Z.of_nat n - 1) * timestep)
    (0, (Z.of_nat n - 1) * timestep) = Ok (st, et) ->
  0 <= st <= et ->
  et <= (Z.of_nat n - 1) * timestep ->
  In (EvLinregress xs ys) (log (snd (present_msd w v blank))) ->
  (length ys <= n - 1)%nat /\
  length xs = length ys /\
  (forall k y, ys !! k = Some y ->
     exists i, (i + 1 < n)%nat /\ msd !! i = Some y /\
               xs !! k = Some (inject_Z (Z.of_nat i * timestep))) /\
  (st = 0 -> et = (Z.of_nat n - 1) * timestep ->
     ys = take (n - 1) msd /\ xs = QZ (take (n - 1) (lagtimes n))).
Proof.
  intros Hres Hlen Hn Hsl Hst Het Hin.
  destruct (window_lookups msd n st et Hlen Hst Het)
    as (y_lo & y_hi & Hylo & Hyhi).
  destruct (window_slices msd n st et Hlen Hst Het)
    as (Hqs & Hqe & Hidx & Hlx & Hly & Hk).
  pose proof (present_msd_run w v blank msd n st et y_lo y_hi Hres Hn Hsl
                Hylo Hyhi) as Hrun.
  cbv zeta in Hrun.
  set (xs0 := QZ (py_slice (lagtimes n) (Z.quot st timestep)
                    (Z.quot et timestep))) in *.
  set (ys0 := py_slice msd (Z.quot st timestep) (Z.quot et timestep)) in *.
  assert (E : xs = xs0 /\ ys = ys0).
  { destruct (linregress w xs0 ys0) as [lm|e];
      [destruct (dim_fac (analysis v)) as [df|e]; [destruct Hrun as [fig Hrun]|]|];
      rewrite Hrun in Hin; cbn [snd logged log blank app] in Hin;
      repeat (destruct Hin as [Hin|Hin];
              [first [discriminate Hin | by injection Hin as <- <-]|]);
      destruct Hin. }
  destruct E as [-> ->].
  split; [lia|]. split; [lia|]. split.
  - intros k y Hy.
    assert (k < Z.to_nat (et / 100 - st / 100))%nat as Hlt
      by (apply lookup_lt_Some in Hy; lia).
    destruct (Hk k Hlt) as [Hx Hy'].
    exists (Z.to_nat (st / 100) + k)%nat.
    split; [lia|]. split; [by rewrite <- Hy'|].
    rewrite Hx. do 2 f_equal. unfold timestep. lia.
  - intros -> ->.
    assert (Hq0 : Z.quot 0 timestep = 0) by reflexivity.
    assert (Hq1 : Z.quot ((Z.of_nat n - 1) * timestep) timestep
                  = Z.of_nat n - 1).
    { rewrite Hqe. unfold timestep. apply Z.div_mul. lia. }
    subst xs0 ys0. rewrite Hq0, Hq1.
    destruct (py_slice_inner msd 0 (Z.of_nat n - 1)) as (-> & _);
      [lia | lia |].
    destruct (py_slice_inner (lagtimes n) 0 (Z.of_nat n - 1)) as (-> & _);
      [lia | rewrite lagtimes_length; lia |].
    replace (Z.to_nat (Z.of_nat n - 1 - 0)) with (n - 1)%nat by lia.
    done.
Qed.

Lemma fit_leaves_out_last_frame_witness :
  let w := example_world ["traj.xyz"] ["topo.mol2"] ["box.pbc"] [MSD] []
             None [0; 600; 1200; 1800]%Q in
  let v := {| analysis := build MSD
                {| topology := None; coordinates := None; format := "XYZ";
                   topology_format := "MOL2"; dimensions := None;
                   transformations := [] |};
              results := MsdResults [0; 600; 1200; 1800]%Q 4 |} in
  let xs := [0; 100; 200]%Q in
  let ys := [0; 600; 1200]%Q in
  (length ys <= 4 - 1)%nat /\
  length xs = length ys /\
  (forall k y, ys !! k = Some y ->
     exists i, (i + 1 < 4)%nat /\ [0; 600; 1200; 1800]%Q !! i = Some y /\
               xs !! k = Some (inject_Z (Z.of_nat i * timestep))) /\
  (0 = 0 -> 300 = (Z.of_nat 4 - 1) * timestep ->
     ys = take (4 - 1) [0; 600; 1200; 1800]%Q /\
     xs = QZ (take (4 - 1) (lagtimes 4))).
Proof.
  intros w v xs ys.
  apply (fit_leaves_out_last_frame w v [0; 600; 1200; 1800]%Q 4 0 300 xs ys);
    [reflexivity | reflexivity | lia | reflexivity | lia
    | unfold timestep; lia | vm_compute; tauto].
Defined.

(** ** A result without frames *)

(** X6. The MSD section renders its slider exactly when the stored result
    has at least one frame. With none, the lag-time axis is empty, taking
    its first element raises [IndexError], and the section ends there:
    after the timestep line nothing is shown, the regression is not
    called. *)
Theorem msd_slider_needs_a_frame (w : World) (v : Ran) (p : Page)
    (msd : list Q) (n : nat) :
  results v = MsdResults msd n ->
  (n = 0%nat ->
     present_msd w v p =
       (Raise (IndexError "index out of bounds"),
        logged p [EvWrite [Text "Calculating MSD with a timestep of ";
                           IntF timestep; Text " fs"]])) /\
  ((1 <= n)%nat ->
     exists rest,
       log (snd (present_msd w v p)) =
         log p ++
         [EvWrite [Text "Calculating MSD with a timestep of ";
                   IntF timestep; Text " fs"];
          EvSlider "Select start and end time (ps):" 0
            ((Z.of_nat n - 1) * timestep) (0, (Z.of_nat n - 1) * timestep)]
         ++ rest).
Proof.
  intros Hres. split.
  - intros ->. unfold present_msd. rewrite Hres.
    unfold st_write, bind, emit, lift. reflexivity.
  - intros Hn. destruct (lagtimes_ends n Hn) as [H0 H1].
    unfold present_msd. rewrite Hres.
    unfold st_write, st_slider, st_plotly_chart. unfold bind, emit, lift.
    rewrite H0, H1. cbn [session log].
    destruct (slider w _ _ _ _) as [[st et]|e]; cbv beta iota.
    2:{ exists []. cbn [snd log]. by rewrite <- !app_assoc. }
    destruct (py_index msd (st / timestep)); cbv beta iota.
    2:{ exists []. cbn [snd log]. by rewrite <- !app_assoc. }
    destruct (py_index msd (et / timestep)); cbv beta iota.
    2:{ exists []. cbn [snd log]. by rewrite <- !app_assoc. }
    destruct (linregress w _ _); cbv beta iota.
    2:{ eexists [_]. cbn [snd log]. by rewrite <- !app_assoc. }
    destruct (dim_fac (analysis v)); cbv beta iota.
    2:{ eexists [_]. cbn [snd log]. by rewrite <- !app_assoc. }
    eexists [_; _; _]. cbn [snd log]. by rewrite <- !app_assoc.
Qed.

Lemma msd_slider_needs_a_frame_witness :
  let w := example_world ["traj.xyz"] ["topo.mol2"] ["box.pbc"] [MSD] []
             None [] in
  let v := {| analysis := build MSD
                {| topology := None; coordinates := None; format := "XYZ";
                   topology_format := "MOL2"; dimensions := None;
                   transformations := [] |};
              results := MsdResults [] 0 |} in
  (0%nat = 0%nat ->
     present_msd w v blank =
       (Raise (IndexError "index out of bounds"),
        logged blank [EvWrite [Text "Calculating MSD with a timestep of ";
                               IntF timestep; Text " fs"]])) /\
  ((1 <= 0)%nat ->
     exists rest,
       log (snd (present_msd w v blank)) =
         log blank ++
         [EvWrite [Text "Calculating MSD with a timestep of ";
                   IntF timestep; Text " fs"];
          EvSlider "Select start and end time (ps):" 0
            ((Z.of_nat 0 - 1) * timestep) (0, (Z.of_nat 0 - 1) * timestep)]
         ++ rest).
Proof.
  intros w v. apply (msd_slider_needs_a_frame w v blank [] 0). reflexivity.
Defined.

(** ** The RDF and the dielectric sections, first use *)

(** X8. First use of the RDF section (box ticked, System built, nothing
    cached, button not pressed, the analysis returning bins and g(r)): the
    analysis is run once and stored under "rdf_OO" before the reference
    data is read from the framework's install directory. If that read
    fails the run ends in its exception with no chart, but the result stays
    cached; otherwise the chart holds the experimental curve and then the
    calculated one, with the axis titles "r (Å)" and "g(r) O-O". *)
Theorem rdf_section_first_use (w : World) (sel : Selection) (p : Page)
    (u : Universe) (bins rdf : list Q) :
  checkbox w (check_label RDF) = true ->
  system w sel = Ok u ->
  session p !! "rdf_OO" = None ->
  button w (recalc_label RDF) = false ->
  run w (build RDF u) = Ok (RdfResults bins rdf) ->
  let out := metric_section w RDF sel p in
  let csv := (st_install_dir w ++ "/tamagotchi/data/RDF_OO_exp.csv")%string in
  let calls :=
    [EvCheckbox "Calculate RDFs" true] ++ system_calls w sel ++
    [EvRun (build RDF u); EvButton "Recalculate RDFs" false; EvReadCsv csv] in
  session (snd out) =
    <["rdf_OO" := {| analysis := build RDF u;
                     results := RdfResults bins rdf |}]> (session p) /\
  match read_csv w csv with
  | Raise e => fst out = Raise e /\ log (snd out) = log p ++ calls
  | Ok exp =>
      fst out = Ok tt /\
      log (snd out) =
        log p ++ calls ++
        [EvPlotlyChart
           {| traces :=
                [{| sc_x := fst exp; sc_y := snd exp;
                    sc_name := "Experimental"; sc_secondary_y := false |};
                 {| sc_x := bins; sc_y := rdf;
                    sc_name := "Calculated"; sc_secondary_y := false |}];
              layout := [update_xaxes "r (Å)" None;
                         update_yaxes "g(r) O-O" None false] |}]
  end.
Proof.
  intros Hc Hsys Hs Hb Hrun out csv calls. subst out calls.
  rewrite section_unfold, Hc, Hsys. cbv zeta.
  unfold cached, analysis_run, st_sidebar_button, get_session, store.
  unfold bind, emit, lift, ret, raise. cbn [session log logged key].
  cbn [key recalc_label check_label] in Hs, Hb. rewrite Hs, Hrun.
  cbn [session log recalc_label]. rewrite Hb. cbn [session log].
  rewrite lookup_insert_eq. cbn [fst snd session log logged].
  split; [done|].
  unfold present, present_rdf, st_plotly_chart.
  unfold bind, emit, lift, raise. cbn [session log blank results app].
  fold csv. destruct (read_csv w csv) as [exp|e]; cbn [fst snd log].
  - split; [done|]. by rewrite <- !app_assoc.
  - split; [done|]. by rewrite <- !app_assoc.
Qed.

Lemma rdf_section_first_use_witness :
  let w := example_world ["traj.xyz"] ["topo.mol2"] ["box.pbc"] [RDF] []
             None [] in
  let sel := selection w in
  let u := {| topology := Some "topo.mol2"; coordinates := Some "traj.xyz";
              format := "XYZ"; topology_format := "MOL2";
              dimensions := Some [18; 18; 18; 90; 90; 90]%Q;
              transformations := [] |} in
  let out := metric_section w RDF sel blank in
  let csv := (st_install_dir w ++ "/tamagotchi/data/RDF_OO_exp.csv")%string in
  let calls :=
    [EvCheckbox "Calculate RDFs" true] ++ system_calls w sel ++
    [EvRun (build RDF u); EvButton "Recalculate RDFs" false; EvReadCsv csv] in
  session (snd out) =
    <["rdf_OO" := {| analysis := build RDF u;
                     results := RdfResults [] [] |}]> (session blank) /\
  match read_csv w csv with
  | Raise e => fst out = Raise e /\ log (snd out) = log blank ++ calls
  | Ok exp =>
      fst out = Ok tt /\
      log (snd out) =
        log blank ++ calls ++
        [EvPlotlyChart
           {| traces :=
                [{| sc_x := fst exp; sc_y := snd exp;
                    sc_name := "Experimental"; sc_secondary_y := false |};
                 {| sc_x := []; sc_y := [];
                    sc_name := "Calculated"; sc_secondary_y := false |}];
              layout := [update_xaxes "r (Å)" None;
                         update_yaxes "g(r) O-O" None false] |}]
  end.
Proof.
  intros w sel u.
  apply (rdf_section_first_use w sel blank u [] []); reflexivity.
Defined.

(** X9. First use of the dielectric section (box ticked, System built,
    nothing cached, button not pressed, the analysis returning a mean
    permittivity): the page runs, once, the dielectric-constant analysis
    of all atoms at 298.15 K with molecules made whole, stores it under
    "diel" and writes its [eps_mean] after "Dielectric constant: "; nothing
    else is shown. *)
Theorem dielectric_section_first_use (w : World) (sel : Selection) (p : Page)
    (u : Universe) (eps_mean : Q) :
  checkbox w (check_label DIEL) = true ->
  system w sel = Ok u ->
  session p !! "diel" = None ->
  button w (recalc_label DIEL) = false ->
  run w (DielectricConstant u atoms 298.15%Q true) = Ok (DielResults eps_mean) ->
  metric_section w DIEL sel p =
    (Ok tt,
     {| session :=
          <["diel" := {| analysis := DielectricConstant u atoms 298.15%Q true;
                         results := DielResults eps_mean |}]> (session p);
        log :=
          log p ++
          [EvCheckbox "Calculate Dielectric Constant" true] ++
          system_calls w sel ++
          [EvRun (DielectricConstant u atoms 298.15%Q true);
           EvButton "Recalculate Dielectric Constant" false;
           EvWrite [Text "Dielectric constant: "; QF eps_mean]] |}).
Proof.
  intros Hc Hsys Hs Hb Hrun.
  rewrite section_unfold, Hc, Hsys. cbv zeta.
  unfold cached, analysis_run, st_sidebar_button, get_session, store.
  unfold bind, emit, lift, ret, raise. cbn [session log logged key build].
  cbn [key recalc_label check_label] in Hs, Hb. rewrite Hs, Hrun.
  cbn [session log recalc_label]. rewrite Hb. cbn [session log].
  rewrite lookup_insert_eq.
  unfold present, present_diel, st_write, emit.
  cbn [fst snd session log blank results check_label].
  unfold logged. cbn [session log]. rewrite <- !app_assoc. reflexivity.
Qed.

Lemma dielectric_section_first_use_witness :
  let w := example_world ["traj.xyz"] ["topo.mol2"] ["box.pbc"] [DIEL] []
             None [] in
  let sel := selection w in
  let u := {| topology := Some "topo.mol2"; coordinates := Some "traj.xyz";
              format := "XYZ"; topology_format := "MOL2";
              dimensions := Some [18; 18; 18; 90; 90; 90]%Q;
              transformations := [] |} in
  metric_section w DIEL sel blank =
    (Ok tt,
     {| session :=
          <["diel" := {| analysis := DielectricConstant u atoms 298.15%Q true;
                         results := DielResults 78 |}]> (session blank);
        log :=
          log blank ++
          [EvCheckbox "Calculate Dielectric Constant" true] ++
          system_calls w sel ++
          [EvRun (DielectricConstant u atoms 298.15%Q true);
           EvButton "Recalculate Dielectric Constant" false;
           EvWrite [Text "Dielectric constant: "; QF 78]] |}).
Proof.
  intros w sel u.
  apply (dielectric_section_first_use w sel blank u 78); reflexivity.
Defined.

(** ** The MSD chart *)

Lemma arange2_lookup (a b : Z) (k : nat) :
  (k < Z.to_nat (b - a))%nat -> arange2 a b !! k = Some (a + Z.of_nat k).
Proof.
  intros Hk. unfold arange2. by rewrite lookup_map, lookup_seq_lt.
Qed.

(** X10. When the MSD section gets as far as its chart, the chart is the
    last thing it shows and holds two series: the whole MSD series over
    the lag-time axis, and on the secondary axis the reference line, one
    point per femtosecond of the window with ordinate equal to abscissa
    (slope 1). The x axis and the secondary y axis both span the selected
    window; the primary y axis runs from the MSD at the start frame to the
    MSD at the end frame of the window. *)
Theorem msd_chart (w : World) (v : Ran) (p : Page) (msd : list Q) (n : nat)
    (st et : Z) (y_lo y_hi : Q) (lm : LinregressResult) (df : Z) :
  results v = MsdResults msd n ->
  (1 <= n)%nat ->
  slider w "Select start and end time (ps):" 0 ((Z.of_nat n - 1) * timestep)
    (0, (Z.of_nat n - 1) * timestep) = Ok (st, et) ->
  py_index msd (st / timestep) = Ok y_lo ->
  py_index msd (et / timestep) = Ok y_hi ->
  linregress w
    (QZ (py_slice (lagtimes n) (Z.quot st timestep) (Z.quot et timestep)))
    (py_slice msd (Z.quot st timestep) (Z.quot et timestep)) = Ok lm ->
  dim_fac (analysis v) = Ok df ->
  exists line,
    last (log (snd (present_msd w v p))) =
      Some (EvPlotlyChart
              {| traces :=
                   [{| sc_x := QZ (lagtimes n); sc_y := msd;
                       sc_name := "MSD"; sc_secondary_y := false |};
                    {| sc_x := QZ line; sc_y := QZ line;
                       sc_name := "slope = 1"; sc_secondary_y := true |}];
                 layout :=
                   [update_xaxes "lagtime (fs)"
                      (Some (inject_Z st, inject_Z et));
                    update_yaxes "MSD (Å^2 / fs)" (Some (y_lo, y_hi)) false;
                    update_yaxes "" (Some (inject_Z st, inject_Z et))
                      true] |}) /\
    length line = Z.to_nat (et - st) /\
    forall k, (k < Z.to_nat (et - st))%nat ->
      line !! k = Some (st + Z.of_nat k).
Proof.
  intros Hres Hn Hsl Hlo Hhi Hlm Hdf.
  destruct (lagtimes_ends n Hn) as [H0 H1].
  exists (arange2 st et). split; [|split].
  - unfold present_msd. rewrite Hres.
    unfold st_write, st_slider, st_plotly_chart. unfold bind, emit, lift.
    rewrite H0, H1. cbn [session log]. rewrite Hsl. cbv beta iota.
    rewrite Hlo, Hhi. cbv beta iota. rewrite Hlm, Hdf.
    cbn [snd log]. rewrite last_snoc. reflexivity.
  - unfold arange2. by rewrite length_map, length_seq.
  - apply arange2_lookup.
Qed.

Lemma msd_chart_witness :
  let w := example_world ["traj.xyz"] ["topo.mol2"] ["box.pbc"] [MSD] []
             (Some (100, 300)) [0; 600; 1200; 1800]%Q in
  let v := {| analysis := build MSD
                {| topology := None; coordinates := None; format := "XYZ";
                   topology_format := "MOL2"; dimensions := None;
                   transformations := [] |};
              results := MsdResults [0; 600; 1200; 1800]%Q 4 |} in
  exists line,
    last (log (snd (present_msd w v blank))) =
      Some (EvPlotlyChart
              {| traces :=
                   [{| sc_x := QZ (lagtimes 4);
                       sc_y := [0; 600; 1200; 1800]%Q;
                       sc_name := "MSD"; sc_secondary_y := false |};
                    {| sc_x := QZ line; sc_y := QZ line;
                       sc_name := "slope = 1"; sc_secondary_y := true |}];
                 layout :=
                   [update_xaxes "lagtime (fs)"
                      (Some (inject_Z 100, inject_Z 300));
                    update_yaxes "MSD (Å^2 / fs)" (Some (600, 1800)%Q) false;
                    update_yaxes "" (Some (inject_Z 100, inject_Z 300))
                      true] |}) /\
    length line = Z.to_nat (300 - 100) /\
    forall k, (k < Z.to_nat (300 - 100))%nat ->
      line !! k = Some (100 + Z.of_nat k).
Proof.
  intros w v.
  apply (msd_chart w v blank [0; 600; 1200; 1800]%Q 4 100 300 600 1800
           {| slope := Fin (ols_slope [100; 200]%Q [600; 1200]%Q);
              intercept :=
                num_sub (Fin (Qmean [600; 1200]%Q))
                  (num_mul (Fin (ols_slope [100; 200]%Q [600; 1200]%Q))
                     (Fin (Qmean [100; 200]%Q))) |} 3);
    [reflexivity | lia | reflexivity | reflexivity | reflexivity
    | | reflexivity].
  vm_compute. reflexivity.
Defined.
